(** * plyer: the Android file chooser (plyer/platforms/android/filechooser.py)

    A shallow embedding of [AndroidFileChooser]: the activity-result
    listener, the URI resolution strategies and the content query parser,
    together with the properties the specification states about them.

    Python values are modelled by the Rocq types the code can produce at each
    place; Python exceptions by an error monad that keeps the state reached
    before the raise (effects are not rolled back); the Android and JVM
    services the module imports ([android], [jnius], [plyer.storagepath])
    by an interface, [Android], whose operations are parameters; the file
    system behind [os] and [java.io] by a map from paths to nodes. *)

From Stdlib Require Import ZArith String Ascii List Lia Bool DecimalString.
From stdpp Require Import base option list gmap strings.

Local Open Scope Z_scope.
Local Open Scope list_scope.

(** ** Python strings and [os.path] *)

Module Py.

(** [c.lower()] on one ASCII character. *)
Definition lower_ascii (c : ascii) : ascii :=
  let n := nat_of_ascii c in
  if (Nat.leb 65 n && Nat.leb n 90)%bool then ascii_of_nat (n + 32) else c.

(** [s.lower()]. *)
Fixpoint lower (s : string) : string :=
  match s with
  | EmptyString => EmptyString
  | String c r => String (lower_ascii c) (lower r)
  end.

Definition is_sep (c : ascii) : bool := Ascii.eqb c "/"%char.

(** [s.startswith('/')]. *)
Definition startswith_sep (s : string) : bool :=
  match s with
  | String c _ => is_sep c
  | EmptyString => false
  end.

(** [s.endswith('/')]. *)
Fixpoint endswith_sep (s : string) : bool :=
  match s with
  | EmptyString => false
  | String c EmptyString => is_sep c
  | String _ r => endswith_sep r
  end.

(** [bool(s)] for a [str]: the empty string is falsy. *)
Definition nonempty (s : string) : bool :=
  match s with EmptyString => false | String _ _ => true end.

(** [posixpath.join(a, b)] for two [str] arguments. *)
Definition join (a b : string) : string :=
  if startswith_sep b then b
  else if (negb (nonempty a) || endswith_sep a)%bool then a +:+ b
  else a +:+ "/" +:+ b.

(** [posixpath.basename(p)]: [p[p.rfind('/') + 1:]].  [cur] is the text read
    since the last separator. *)
Fixpoint basename_from (cur p : string) : string :=
  match p with
  | EmptyString => cur
  | String c r =>
      if is_sep c then basename_from EmptyString r
      else basename_from (cur +:+ String c EmptyString) r
  end.

Definition basename (p : string) : string := basename_from EmptyString p.

(** [s.rstrip('/')]. *)
Fixpoint rstrip_sep (s : string) : string :=
  match s with
  | EmptyString => EmptyString
  | String c r =>
      match rstrip_sep r with
      | EmptyString => if is_sep c then EmptyString else String c EmptyString
      | String _ _ as r' => String c r'
      end
  end.

(** [p[:p.rfind('/') + 1]]: [head] is what was read up to the last
    separator, [cur] the text read since. *)
Fixpoint head_from (head cur p : string) : string :=
  match p with
  | EmptyString => head
  | String c r =>
      if is_sep c then head_from (head +:+ cur +:+ String c EmptyString) EmptyString r
      else head_from head (cur +:+ String c EmptyString) r
  end.

(** [posixpath.dirname(p)]: the head, without the separators at its end
    unless it is made of separators only. *)
Definition dirname (p : string) : string :=
  let head := head_from EmptyString EmptyString p in
  if nonempty (rstrip_sep head) then rstrip_sep head else head.

(** [s.split(sep)] for a one-character separator: never an empty list. *)
Fixpoint split (sep : ascii) (s : string) : list string :=
  match s with
  | EmptyString => [EmptyString]
  | String c r =>
      if Ascii.eqb c sep then EmptyString :: split sep r
      else match split sep r with
           | h :: t => String c h :: t
           | [] => [String c EmptyString]
           end
  end.

(** [sep.join(l)] for a list of [str]. *)
Definition str_join (sep : string) (l : list string) : string :=
  String.concat sep l.

(** [t in s] for two [str]: [t] occurs in [s] as a substring. *)
Fixpoint contains (s t : string) : bool :=
  (String.prefix t s ||
   match s with
   | EmptyString => false
   | String _ r => contains r t
   end)%bool.

(** [bool(x)] for [x] that is [None] or a [str]. *)
Definition truthy (x : option string) : bool :=
  match x with Some s => nonempty s | None => false end.

End Py.

(** ** Values, exceptions and the error monad *)

(** The Python exceptions the module can meet.  [JavaException] is the
    [jnius] wrapper of any exception thrown on the JVM side. *)
Inductive exn : Type :=
  | JavaException
  | AttributeError
  | TypeError
  | ValueError
  | IndexError
  | OSError.

#[global] Instance exn_eq_dec : EqDecision exn.
Proof. solve_decision. Defined.

Inductive result (A : Type) : Type :=
  | Ok (a : A)
  | Raise (e : exn).
Arguments Ok {A} a.
Arguments Raise {A} e.

(** One entry of the selection handed to the callback: a path, [None], or
    the empty list that [_resolve_uri(...) or []] produces. *)
Inductive slot : Type :=
  | SPath (p : string)
  | SNone
  | SEmptyList.

(** The value bound to [selection_args] in a query: [file_name] itself
    ([None] or a [str]) or the list [[file_name]]. *)
Inductive pyargs : Type :=
  | ArgScalar (a : option string)
  | ArgList (l : list (option string)).

(** The function stored in [self._handle_selection]: the static placeholder
    of the class or the [on_selection] callable of a caller. *)
Inductive callback : Type :=
  | DefaultHandler
  | OnSelection (id : nat).

(** An [android.database.Cursor]: the column names and the rows, a cell
    being [None] where the column holds SQL NULL. *)
Record Cursor : Type := {
  columnNames : list string;
  rows : list (list (option string))
}.

Definition getColumnCount (c : Cursor) : nat := length (columnNames c).

(** [cursor.getColumnIndex(name)]: the position of the column, or -1. *)
Definition getColumnIndex (c : Cursor) (name : string) : Z :=
  match list_find (λ n, n = name) (columnNames c) with
  | Some (i, _) => Z.of_nat i
  | None => -1
  end.

(** [cursor.getString(idx)] on the current row. *)
Definition getString (row : list (option string)) (idx : nat) : option string :=
  mjoin (row !! idx).

(** Every row has one cell per column. *)
Definition well_formed (c : Cursor) : Prop :=
  Forall (λ row, length row = getColumnCount c) (rows c).

(** A node of the file system seen through [os] and [java.io]. *)
Inductive fnode : Type :=
  | Dir
  | File (content : string).

#[global] Instance fnode_eq_dec : EqDecision fnode.
Proof. solve_decision. Defined.

(** ** The platform interface

    What the module imports from [android], [jnius] and [plyer.storagepath].
    [None] stands for a Java [null] / Python [None] result. *)
Class Android : Type := {
  Uri : Type;
  api_version : Z;
  (* android.net.Uri *)
  getAuthority : Uri → option string;
  getScheme : Uri → option string;
  getPath : Uri → option string;
  Uri_parse : string → Uri;
  (* ContentUris.withAppendedId *)
  withAppendedId : Uri → Z → Uri;
  (* DocumentsContract.getDocumentId; [None]: IllegalArgumentException *)
  getDocumentId : Uri → option string;
  (* Long.valueOf; [None]: NumberFormatException *)
  Long_valueOf : string → option Z;
  (* MediaStore collections *)
  IMedia_EXTERNAL_CONTENT_URI : Uri;
  VMedia_EXTERNAL_CONTENT_URI : Uri;
  AMedia_EXTERNAL_CONTENT_URI : Uri;
  Files_getContentUri : string → Uri;
  (* ContentResolver.query(uri, projection, selection, selection_args,
     sort_order); [Ok None] is a null cursor *)
  query : Uri → option (list string) → option string → pyargs →
          option string → result (option Cursor);
  (* Activity.grantUriPermission *)
  grantUriPermission : Uri → result unit;
  (* ContentResolver.openInputStream, giving the bytes of the stream *)
  openInputStream : option Uri → result string;
  (* Context.getExternalCacheDir().toString() *)
  getExternalCacheDir : option string;
  (* Environment *)
  DIRECTORY_DOCUMENTS : string;
  getExternalStoragePublicDirectory_DOWNLOADS : string;
  (* plyer.storagepath *)
  get_external_storage_dir : string;
  get_sdcard_dir : option string
}.

(** [Activity.RESULT_OK]. *)
Definition RESULT_OK : Z := -1.

(** ** The chooser object, the world state and the effects *)

Section Chooser.

Context `{P : Android}.

(** [android.content.Intent] as the listener reads it: the clip data (the
    [Uri] of each item, [None] for an item without one) and the data URI. *)
Record Intent : Type := {
  getClipData : option (list (option Uri));
  getData : option Uri
}.

(** What the module does to the outside, in the order it does it. *)
Inductive event : Type :=
  | EBind
  | EGrant (uri : Uri)
  | EQuery (uri : Uri) (projection : option (list string))
           (selection : option string) (selection_args : pyargs)
  | EPrintExc (e : exn)
  | EOpenInputStream (uri : option Uri)
  | EStartActivity (mime : string) (multiple : bool) (request_code : Z)
  | ECallback (cb : callback) (sel : list slot).

(** The attributes of an [AndroidFileChooser] instance. *)
Record chooser : Type := {
  select_code : Z;
  save_code : Z;
  selection : option (list slot);
  _handle_selection : callback;
  selected_mime_type : option string
}.

Record state : Type := {
  self : chooser;
  fs : gmap string fnode;
  trace : list event
}.

(** A computation that may raise: the state is kept either way. *)
Definition M (A : Type) : Type := state → result A * state.

Definition ret {A} (a : A) : M A := λ st, (Ok a, st).

Definition raise {A} (e : exn) : M A := λ st, (Raise e, st).

Definition bind {A B} (m : M A) (k : A → M B) : M B :=
  λ st, match m st with
        | (Ok a, st') => k a st'
        | (Raise e, st') => (Raise e, st')
        end.

(** [try: m  except <caught>: h]. *)
Definition try_except {A} (m : M A) (caught : exn → bool) (h : exn → M A) : M A :=
  λ st, match m st with
        | (Ok a, st') => (Ok a, st')
        | (Raise e, st') => if caught e then h e st' else (Raise e, st')
        end.

Definition is_JavaException (e : exn) : bool :=
  match e with JavaException => true | _ => false end.

(** [except Exception] catches every exception of the model. *)
Definition is_Exception (e : exn) : bool := true.

Definition lift {A} (r : result A) : M A := λ st, (r, st).

Definition log (ev : event) : M unit :=
  λ st, (Ok tt, {| self := self st; fs := fs st; trace := trace st ++ [ev] |}).

Definition get_self : M chooser := λ st, (Ok (self st), st).

Definition set_self (c : chooser) : M unit :=
  λ st, (Ok tt, {| self := c; fs := fs st; trace := trace st |}).

Definition get_fs : M (gmap string fnode) := λ st, (Ok (fs st), st).

Definition set_fs (f : gmap string fnode) : M unit :=
  λ st, (Ok tt, {| self := self st; fs := f; trace := trace st |}).

(** A method call or subscript on a value that may be [None]. *)
Definition attr {A} (x : option A) : M A :=
  match x with Some a => ret a | None => raise AttributeError end.

End Chooser.

Notation "'let*' x ':=' m 'in' k" := (bind m (λ x, k))
  (at level 10, x pattern, m at level 100, k at level 200,
   format "'[v' 'let*'  x  ':='  m  'in' '/' k ']'").
Notation "m ';;' k" := (bind m (λ _, k))
  (at level 100, k at level 200, right associativity).

Section Resolution.

Context `{P : Android}.

(** *** [_parse_content] *)

(** [resolver.query(...)]. *)
Definition resolver_query (uri : Uri) (projection : option (list string))
    (selection : option string) (selection_args : pyargs)
    (sort_order : option string) : M (option Cursor) :=
  log (EQuery uri projection selection selection_args);;
  lift (query uri projection selection selection_args sort_order).

(** [mActivity.grantUriPermission(package, uri, flags)]. *)
Definition grant (uri : Uri) : M unit :=
  log (EGrant uri);; lift (grantUriPermission uri).

(** [projection[0]]. *)
Definition first_column (projection : option (list string)) : M string :=
  match projection with
  | None => raise TypeError
  | Some [] => raise IndexError
  | Some (c :: _) => ret c
  end.

(** The two nested loops of the aggregate mode: every cell of every row is
    appended to [result]. *)
Definition collect_row (ncols : nat) (result : list (option string))
    (row : list (option string)) : list (option string) :=
  fold_left (λ acc idx, acc ++ [getString row idx]) (seq 0 ncols) result.

Definition collect_all (c : Cursor) : list (option string) :=
  fold_left (collect_row (getColumnCount c)) (rows c) [].

(** ['/'.join(result)]: a [None] item is a [TypeError]. *)
Definition join_cells (cells : list (option string)) : M (option string) :=
  match mapM id cells with
  | Some strs => ret (Some (Py.str_join "/" strs))
  | None => raise TypeError
  end.

Definition _parse_content (uri : Uri) (projection : option (list string))
    (selection : option string) (selection_args : pyargs)
    (sort_order : option string) (index_all : bool) : M (option string) :=
  grant uri;;
  if negb index_all then
    let* cursor := resolver_query uri projection selection selection_args sort_order in
    let* c := attr cursor in
    let* column := first_column projection in
    let idx := getColumnIndex c column in
    if bool_decide (idx ≠ -1) then
      match rows c with
      | row :: _ => ret (getString row (Z.to_nat idx))
      | [] => ret None
      end
    else ret None
  else
    let* cursor := resolver_query uri projection selection selection_args sort_order in
    let* c := attr cursor in
    join_cells (collect_all c).

(** *** [_handle_external_documents] *)

(** [file_type, file_name = file_id.split(':')]. *)
Definition unpack_pair (parts : list string) : M (string * string) :=
  match parts with
  | [a; b] => ret (a, b)
  | _ => raise ValueError
  end.

(** [DocumentsContract.getDocumentId(uri)]. *)
Definition document_id (uri : Uri) : M string :=
  match getDocumentId uri with
  | Some i => ret i
  | None => raise JavaException
  end.

(** [sdcard_storage and file_type in sdcard_storage]. *)
Definition on_sdcard (sdcard_storage : option string) (file_type : string) : bool :=
  match sdcard_storage with
  | Some sd => Py.nonempty sd && Py.contains sd file_type
  | None => false
  end.

(** The directory chosen by the [if] / [elif] chain. *)
Definition external_directory (file_type : string) : string :=
  let primary_storage := get_external_storage_dir in
  let sdcard_storage := get_sdcard_dir in
  if bool_decide (file_type = "primary") then primary_storage
  else if bool_decide (file_type = "home") then
    Py.join primary_storage DIRECTORY_DOCUMENTS
  else if on_sdcard sdcard_storage file_type then default "" sdcard_storage
  else primary_storage.

Definition _handle_external_documents (uri : Uri) : M string :=
  let* file_id := document_id uri in
  let* (file_type, file_name) := unpack_pair (Py.split ":" file_id) in
  ret (Py.join (external_directory file_type) file_name).

(** *** [_handle_media_documents] *)

(** The collection chosen by the [if] / [elif] chain. *)
Definition media_collection (file_type : string) : Uri :=
  if bool_decide (file_type = "image") then IMedia_EXTERNAL_CONTENT_URI
  else if bool_decide (file_type = "video") then VMedia_EXTERNAL_CONTENT_URI
  else if bool_decide (file_type = "audio") then AMedia_EXTERNAL_CONTENT_URI
  else Files_getContentUri "external".

Definition _handle_media_documents (uri : Uri) : M (string * string * Uri) :=
  let* file_id := document_id uri in
  let* (file_type, file_name) := unpack_pair (Py.split ":" file_id) in
  let selection := "_id=?" in
  let uri := media_collection file_type in
  ret (file_name, selection, uri).

(** *** [_handle_downloads_documents] *)

(** The known locations of the downloads provider. *)
Definition downloads : list string :=
  [ "content://downloads/public_downloads";
    "content://downloads/my_downloads";
    "content://downloads/all_downloads" ].

(** [join(download_dir, path)] with [path] possibly [None]. *)
Definition join_opt (a : string) (b : option string) : M string :=
  match b with
  | Some s => ret (Py.join a s)
  | None => raise TypeError
  end.

(** [Long.valueOf(file_id)]. *)
Definition long_value (file_id : string) : M Z :=
  match Long_valueOf file_id with
  | Some n => ret n
  | None => raise JavaException
  end.

(** One of the two [for down in try_uris] loops: [attempt] is the query of
    the loop, [path] the variable the loop assigns; a [JavaException] is
    printed and leaves [path] as it was; a truthy [path] breaks. *)
Fixpoint try_candidates (attempt : Uri → M (option string))
    (try_uris : list Uri) (path : option string) : M (option string) :=
  match try_uris with
  | [] => ret path
  | down :: rest =>
      let* path := try_except (attempt down) is_JavaException
                     (λ e, log (EPrintExc e);; ret path) in
      if Py.truthy path then ret path
      else try_candidates attempt rest path
  end.

Definition query_data (down : Uri) : M (option string) :=
  _parse_content down (Some ["_data"]) None (ArgScalar None) None false.

Definition query_all (down : Uri) : M (option string) :=
  _parse_content down None None (ArgScalar None) None true.

(** [try_uris]: the candidate locators of the row [row]. *)
Definition try_uris (row : Z) : list Uri :=
  map (λ down, withAppendedId (Uri_parse down) row) downloads.

(** The query of the [try] block, for the display name. *)
Definition query_display_name (uri : Uri) : M (option string) :=
  _parse_content uri (Some ["_display_name"]) None (ArgScalar None) None false.

(** The [try] block: the display name under the public downloads
    directory. *)
Definition downloads_display_name (uri : Uri) : M (option string) :=
  let download_dir := getExternalStoragePublicDirectory_DOWNLOADS in
  let* path := query_display_name uri in
  let* joined := join_opt download_dir path in
  ret (Some joined).

(** What follows the [try] statement: the two loops over the known
    locations. *)
Definition downloads_known_locations (uri : Uri) : M (option string) :=
  let* file_id := document_id uri in
  let* row := long_value file_id in
  let* path := try_candidates query_data (try_uris row) None in
  if negb (Py.truthy path) then try_candidates query_all (try_uris row) path
  else ret path.

Definition _handle_downloads_documents (uri : Uri) : M (option string) :=
  try_except (downloads_display_name uri) is_Exception
    (λ e, log (EPrintExc e);; downloads_known_locations uri).

(** *** [_resolve_uri] *)

(** [try: body  finally: final].  [body] gives the new value of the variable
    the statement assigns, [var0] is its value when [body] raises before the
    assignment, [final] is the [finally] block, run in both cases; an
    exception of [body] is raised again after [final], unless [final] raises
    itself. *)
Definition try_finally {A} (body : M A) (var0 : A) (final : A → M A) : M A :=
  λ st, match body st with
        | (Ok a, st') => final a st'
        | (Raise e, st') =>
            match final var0 st' with
            | (Ok _, st'') => (Raise e, st'')
            | (Raise e', st'') => (Raise e', st'')
            end
        end.

(** The [content://] branch: [_uri] is the URI the method received, [uri]
    the one a strategy may have put in its place, [path] the variable
    as the branch finds it. *)
Definition parse_content_scheme (_uri uri : Uri) (selection file_name : option string)
    (path : option string) : M (option string) :=
  try_finally
    (try_except
       (_parse_content uri (Some ["_data"]) selection (ArgScalar file_name) None false)
       is_JavaException
       (λ _, _parse_content uri (Some ["_data"]) selection (ArgList [file_name])
               None false))
    path
    (λ path,
       if negb (Py.truthy path) then
         _parse_content _uri (Some ["_display_name"]) None (ArgScalar None) None false
       else ret path).

(** The local variables a strategy leaves behind. *)
Record locals : Type := {
  l_path : option string;
  l_file_name : option string;
  l_selection : option string;
  l_uri : Uri;
  l_downloads : option string
}.

Definition _resolve_uri (uri : option Uri) : M (option string) :=
  let* uri := attr uri in
  let uri_authority := getAuthority uri in
  let* scheme := attr (getScheme uri) in
  let uri_scheme := Py.lower scheme in
  let _uri := uri in
  if bool_decide (uri_authority = Some "com.android.externalstorage.documents") then
    let* p := _handle_external_documents uri in
    ret (Some p)
  else
    let* v :=
      if bool_decide (uri_authority = Some "com.android.providers.downloads.documents")
      then
        let* d := _handle_downloads_documents uri in
        ret {| l_path := d; l_file_name := None; l_selection := None;
               l_uri := uri; l_downloads := d |}
      else if bool_decide (uri_authority = Some "com.android.providers.media.documents")
      then
        let* r := _handle_media_documents uri in
        ret {| l_path := None; l_file_name := Some r.1.1; l_selection := Some r.1.2;
               l_uri := r.2; l_downloads := None |}
      else
        ret {| l_path := None; l_file_name := None; l_selection := None;
               l_uri := uri; l_downloads := None |} in
    if bool_decide (uri_scheme = "content") && negb (Py.truthy (l_downloads v)) then
      parse_content_scheme _uri (l_uri v) (l_selection v) (l_file_name v) (l_path v)
    else if bool_decide (uri_scheme = "file") then ret (getPath (l_uri v))
    else ret (l_path v).

(** *** The file system and the streams

    The file system maps a path to the node it names.  A path is read as
    it is written, apart from the separators at its end: [p/] names what
    [p] names when that is a directory, and nothing otherwise; a path of
    separators only names the root.  Components [.] and [..], repeated
    separators inside a path, links and access rights are not modelled. *)

(** What [os.stat(p)] finds. *)
Definition stat (f : gmap string fnode) (p : string) : option fnode :=
  if Py.endswith_sep p then
    let q := Py.rstrip_sep p in
    if Py.nonempty q then
      match f !! q with Some Dir => Some Dir | _ => None end
    else Some Dir
  else f !! p.

(** The directory in which the last component of [p] is looked up; the
    empty path stands for the current directory. *)
Definition parent (p : string) : string := Py.dirname (Py.rstrip_sep p).

Definition parent_is_dir (f : gmap string fnode) (p : string) : bool :=
  negb (Py.nonempty (parent p)) || bool_decide (stat f (parent p) = Some Dir).

(** [os.path.exists(p)]. *)
Definition path_exists (p : string) : M bool :=
  let* f := get_fs in ret (bool_decide (is_Some (stat f p))).

(** [os.mkdir(p)]: an error ([FileExistsError]) when something is at [p]
    already, and an error ([FileNotFoundError], [NotADirectoryError]) when
    the parent of [p] is not a directory. *)
Definition os_mkdir (p : string) : M unit :=
  let* f := get_fs in
  let q := Py.rstrip_sep p in
  if negb (Py.nonempty q) then raise OSError
  else
    match f !! q with
    | Some _ => raise OSError
    | None =>
        if parent_is_dir f p then set_fs (<[q := Dir]> f) else raise OSError
    end.

(** [os.remove(p)]: removes a file, an error for a directory
    ([IsADirectoryError]) and for a path that names nothing. *)
Definition os_remove (p : string) : M unit :=
  let* f := get_fs in
  match stat f p with
  | Some (File _) => set_fs (delete p f)
  | _ => raise OSError
  end.

(** [cr.openInputStream(uri)]. *)
Definition open_input_stream (uri : option Uri) : M string :=
  log (EOpenInputStream uri);; lift (openInputStream uri).

(** [FileOutputStream(p)]: creates or truncates the file; a
    [FileNotFoundException] when [p] names a directory, or a file to make
    in what is not a directory. *)
Definition FileOutputStream (p : string) : M string :=
  let* f := get_fs in
  if Py.endswith_sep p || negb (Py.nonempty p) then raise JavaException
  else
    match f !! p with
    | Some Dir => raise JavaException
    | Some (File _) => set_fs (<[p := File ""]> f);; ret p
    | None =>
        if parent_is_dir f p then set_fs (<[p := File ""]> f);; ret p
        else raise JavaException
    end.

(** [FileUtils.copy(rs, ws)]. *)
Definition FileUtils_copy (rs : string) (ws : string) : M unit :=
  let* f := get_fs in set_fs (<[ws := File rs]> f).

(** *** [_on_activity_result] *)

(** [_resolve_uri(...) or []]. *)
Definition or_empty_list (ele : option string) : slot :=
  match ele with
  | Some s => if Py.nonempty s then SPath s else SEmptyList
  | None => SEmptyList
  end.

(** The value [_resolve_uri] returned, as a list item. *)
Definition to_slot (ele : option string) : slot :=
  match ele with
  | Some s => SPath s
  | None => SNone
  end.

(** The body of [for count in range(...getItemCount())]. *)
Fixpoint resolve_items (items : list (option Uri)) (selection : list slot)
    : M (list slot) :=
  match items with
  | [] => ret selection
  | item :: rest =>
      let* ele := _resolve_uri item in
      resolve_items rest (selection ++ [or_empty_list ele])
  end.

(** The [try] / [except Exception] that builds [selection]. *)
Definition resolve_selection (data : Intent) : M (list slot) :=
  try_except
    (let* clip := attr (getClipData data) in resolve_items clip [])
    is_Exception
    (λ _, let* ele := _resolve_uri (getData data) in ret [to_slot ele]).

(** [basename(selection[0])]. *)
Definition basename_first (selection : list slot) : M string :=
  match selection with
  | [] => raise IndexError
  | SPath p :: _ => ret (Py.basename p)
  | _ :: _ => raise TypeError
  end.

(** [self._handle_selection(sel)]. *)
Definition handle_selection (sel : list slot) : M unit :=
  let* c := get_self in log (ECallback (_handle_selection c) sel).

Definition set_selection (sel : list slot) : M unit :=
  let* c := get_self in
  set_self {| select_code := select_code c; save_code := save_code c;
              selection := Some sel; _handle_selection := _handle_selection c;
              selected_mime_type := selected_mime_type c |}.

(** The [api_version > 28] branch. *)
Definition copy_to_cache (selection : list slot) (data : Intent) : M unit :=
  let* filename := basename_first selection in
  let* cache_dir := attr getExternalCacheDir in
  let cache_file_loc := Py.join cache_dir "FromSharedStorage" in
  let* there := path_exists cache_file_loc in
  (if negb there then os_mkdir cache_file_loc else ret tt);;
  let cache_file := Py.join cache_file_loc filename in
  let* stale := path_exists cache_file in
  (if stale then os_remove cache_file else ret tt);;
  let* rs := open_input_stream (getData data) in
  let* ws := FileOutputStream cache_file in
  FileUtils_copy rs ws;;
  handle_selection [SPath cache_file].

Definition _on_activity_result (request_code result_code : Z)
    (data : option Intent) : M unit :=
  match data with
  | None => ret tt
  | Some data =>
      if bool_decide (result_code ≠ RESULT_OK) then ret tt
      else
        let* c := get_self in
        if bool_decide (request_code = select_code c) then
          let* selection := resolve_selection data in
          set_selection selection;;
          if bool_decide (api_version > 28) then copy_to_cache selection data
          else handle_selection selection
        else ret tt
  end.

(** *** [__init__] and [_open_file] *)

(** [randint(a, b)]: an integer of [a..b]; [draw] is what the generator
    yields for this call. *)
Definition randint (a b : Z) (draw : Z) : Z := a + draw mod (b - a + 1).

Definition __init__ (draw1 draw2 : Z) : M unit :=
  let* c := get_self in
  set_self {| select_code := randint 123456 654321 draw1;
              save_code := randint 123456 654321 draw2;
              selection := None;
              _handle_selection := _handle_selection c;
              selected_mime_type := selected_mime_type c |};;
  log EBind.

(** The class attribute [mime_type]. *)
Definition mime_type : gmap string string :=
  list_to_map
    [ ("doc", "application/msword");
      ("docx", "application/vnd.openxmlformats-officedocument." +:+
               "wordprocessingml.document");
      ("ppt", "application/vnd.ms-powerpoint");
      ("pptx", "application/vnd.openxmlformats-officedocument." +:+
               "presentationml.presentation");
      ("xls", "application/vnd.ms-excel");
      ("xlsx", "application/vnd.openxmlformats-officedocument." +:+
               "spreadsheetml.sheet");
      ("text", "text/*");
      ("pdf", "application/pdf");
      ("zip", "application/zip");
      ("image", "image/*");
      ("video", "video/*");
      ("audio", "audio/*");
      ("application", "application/*") ].

(** The keyword arguments [_open_file] reads. *)
Record open_kwargs : Type := {
  on_selection : option callback;
  filters : option (list string);
  multiple : option bool
}.

Definition _open_file (kwargs : open_kwargs) : M unit :=
  let* c := get_self in
  let handler := default (_handle_selection c) (on_selection kwargs) in
  set_self {| select_code := select_code c; save_code := save_code c;
              selection := selection c; _handle_selection := handler;
              selected_mime_type := selected_mime_type c |};;
  let* mime :=
    match filters kwargs with
    | Some [] => raise IndexError
    | Some (f :: _) => ret f
    | None => ret ""
    end in
  set_self {| select_code := select_code c; save_code := save_code c;
              selection := selection c; _handle_selection := handler;
              selected_mime_type := Some mime |};;
  let type := default "*/*" (mime_type !! mime) in
  log (EStartActivity type (default false (multiple kwargs)) (select_code c)).

End Resolution.

(** ** A concrete device

    An instance of the interface on which the methods can be run: URIs are
    their three components, a document id is what follows [/document/] in the
    path, and the content providers, the removable-media directory and the
    platform version are given per scenario. *)

Module Device.

Record uri : Type := {
  scheme : option string;
  authority : option string;
  path : option string
}.

#[global] Instance uri_eq_dec : EqDecision uri.
Proof. solve_decision. Defined.

Definition file_uri (p : string) : uri :=
  {| scheme := Some "file"; authority := None; path := Some p |}.

Definition content_uri (a p : string) : uri :=
  {| scheme := Some "content"; authority := Some a; path := Some p |}.

(** [text] without its last character. *)
Fixpoint chop (text : string) : string :=
  match text with
  | EmptyString => EmptyString
  | String _ EmptyString => EmptyString
  | String c r => String c (chop r)
  end.

(** [Uri.parse] of a hierarchical [scheme://authority/segments] text. *)
Definition parse (text : string) : uri :=
  match Py.split "/" text with
  | s :: "" :: a :: segments =>
      {| scheme := Some (chop s); authority := Some a;
         path := Some (String.concat "" (map (λ seg, "/" +:+ seg) segments)) |}
  | _ => {| scheme := None; authority := None; path := Some text |}
  end.

Definition decimal (n : Z) : string := DecimalString.NilZero.string_of_int (Z.to_int n).

Definition with_appended_id (u : uri) (n : Z) : uri :=
  {| scheme := scheme u; authority := authority u;
     path := Some (default "" (path u) +:+ "/" +:+ decimal n) |}.

(** The text after the prefix [pre] of [text], when it starts with it. *)
Fixpoint strip_prefix (pre text : string) : option string :=
  match pre, text with
  | EmptyString, _ => Some text
  | String a pre', String b text' =>
      if Ascii.eqb a b then strip_prefix pre' text' else None
  | String _ _, EmptyString => None
  end.

Definition document_id_of (u : uri) : option string :=
  p ← path u; strip_prefix "/document/" p.

Definition long_of (text : string) : option Z :=
  n ← Z.of_int <$> DecimalString.NilZero.int_of_string text;
  if bool_decide (- 2 ^ 63 ≤ n < 2 ^ 63) then Some n else None.

Definition provider : Type :=
  uri → option (list string) → option string → pyargs → option string →
  result (option Cursor).

(** The device: what the permission grant does, platform version, content
    providers, removable-media directory and the readable streams. *)
Definition android_with (grants : uri → result unit) (api : Z)
    (providers : provider) (sdcard : option string)
    (streams : option uri → result string) : Android :=
  {| Uri := uri;
     api_version := api;
     getAuthority := authority;
     getScheme := scheme;
     getPath := path;
     Uri_parse := parse;
     withAppendedId := with_appended_id;
     getDocumentId := document_id_of;
     Long_valueOf := long_of;
     IMedia_EXTERNAL_CONTENT_URI := content_uri "media" "/external/images/media";
     VMedia_EXTERNAL_CONTENT_URI := content_uri "media" "/external/video/media";
     AMedia_EXTERNAL_CONTENT_URI := content_uri "media" "/external/audio/media";
     Files_getContentUri := λ volume, content_uri "media" ("/" +:+ volume +:+ "/file");
     query := providers;
     grantUriPermission := grants;
     openInputStream := streams;
     getExternalCacheDir := Some "/storage/emulated/0/Android/data/org.test/cache";
     DIRECTORY_DOCUMENTS := "Documents";
     getExternalStoragePublicDirectory_DOWNLOADS := "/storage/emulated/0/Download";
     get_external_storage_dir := "/storage/emulated/0";
     get_sdcard_dir := sdcard |}.

(** The device on which every permission grant succeeds. *)
Definition android : Z → provider → option string →
    (option uri → result string) → Android :=
  android_with (λ _, Ok tt).

(** A stream can be opened on every URI; on [null] the resolver throws. *)
Definition readable (u : option uri) : result string :=
  match u with
  | Some _ => Ok "bytes"
  | None => Raise JavaException
  end.

(** No provider knows any URI. *)
Definition no_provider : provider := λ _ _ _ _ _, Raise JavaException.

(** Every provider answers with a cursor without rows. *)
Definition empty_provider : provider :=
  λ _ projection _ _ _, Ok (Some {| columnNames := default [] projection; rows := [] |}).

End Device.

(** ** Observations on runs *)

Section Observations.

Context `{P : Android}.

(** The state after the events [evs] and nothing else. *)
Definition emit (evs : list event) (st : state) : state :=
  {| self := self st; fs := fs st; trace := trace st ++ evs |}.

(** [m] acts like a writer: whatever the state, it ends with [r] and has
    added the events [evs], touching neither the object nor the files. *)
Definition writer {A} (m : M A) (r : result A) (evs : list event) : Prop :=
  ∀ st, m st = (r, emit evs st).


(** A chooser before [__init__], with the class attributes. *)
Definition blank : chooser :=
  {| select_code := 0; save_code := 0; selection := None;
     _handle_selection := DefaultHandler; selected_mime_type := None |}.

Definition initial : state := {| self := blank; fs := ∅; trace := [] |}.

(** What [m] returns or raises, and the events it adds, from [initial]. *)
Definition outcome {A} (m : M A) : result A := (m initial).1.

Definition events {A} (m : M A) : list event := trace (m initial).2.

(** The invocations of the callback recorded in a trace. *)
Definition callbacks (tr : list event) : list (callback * list slot) :=
  omap (λ ev, match ev with ECallback cb sel => Some (cb, sel) | _ => None end) tr.

(** The events of resolution: grants, queries and printed tracebacks. *)
Definition resolution_event (ev : event) : Prop :=
  match ev with
  | EGrant _ | EQuery _ _ _ _ | EPrintExc _ => True
  | _ => False
  end.

(** [m] is a writer of resolution events only. *)
Definition is_writer {A} (m : M A) : Prop :=
  ∃ r evs, writer m r evs ∧ Forall resolution_event evs.

(** The listener run on a sequence of delivered results
    [(request_code, result_code, data)], an exception of one delivery
    not stopping the next. *)
Definition deliver (results : list (Z * Z * option Intent)) (st : state) : state :=
  fold_left (λ st r, (_on_activity_result r.1.1 r.1.2 r.2 st).2) results st.

(** The ordered attempts of the downloads strategy, as the specification
    words them: the first non-empty value wins, a provider error on one
    attempt (a [JavaException]) passes to the next, and [path] is what is
    left when every attempt is used up. *)
Fixpoint first_nonempty (attempts : list (result (option string)))
    (path : option string) : result (option string) :=
  match attempts with
  | [] => Ok path
  | Ok p :: rest => if Py.truthy p then Ok p else first_nonempty rest p
  | Raise JavaException :: rest => first_nonempty rest path
  | Raise e :: _ => Raise e
  end.

(** An attempt that gave nothing: no value, an empty one, or a provider
    error. *)
Definition empty_attempt (a : result (option string)) : Prop :=
  a = Ok None ∨ a = Ok (Some "") ∨ a = Raise JavaException.

(** The attempts on the candidate locators of a row, in the order the two
    loops make them. *)
Definition download_attempts (row : Z) : list (result (option string)) :=
  map (λ u, outcome (query_data u)) (try_uris row) ++
  map (λ u, outcome (query_all u)) (try_uris row).

(** The events of one call of [_parse_content] whose grant succeeds. *)
Definition attempt_events (uri : Uri) (projection : option (list string))
    (selection : option string) (args : pyargs) : list event :=
  [EGrant uri; EQuery uri projection selection args].

(** The events of one call of [_parse_content], whatever the grant does:
    the grant, and the query when the grant did not raise. *)
Definition call_events (uri : Uri) (projection : option (list string))
    (selection : option string) (args : pyargs) : list event :=
  EGrant uri ::
  match grantUriPermission uri with
  | Ok _ => [EQuery uri projection selection args]
  | Raise _ => []
  end.

(** The value of [path] when the [finally] block of [_resolve_uri] starts:
    [first] and [retry] are the outcomes of the two [_data] queries, [path]
    the value before the [try]. *)
Definition path_before_finally (first retry : result (option string))
    (path : option string) : option string :=
  match first with
  | Ok p => p
  | Raise JavaException => match retry with Ok p => p | Raise _ => path end
  | Raise _ => path
  end.

(** The path of the cache copy of a selected path. *)
Definition cache_file_of (cache_dir p : string) : string :=
  Py.join (Py.join cache_dir "FromSharedStorage") (Py.basename p).

(** The state in which [self.selection] holds [sel]. *)
Definition selected (sel : list slot) (st : state) : state :=
  (set_selection sel st).2.


End Observations.

(** [c] occurs in [s]. *)
Fixpoint has_char (c : ascii) (s : string) : bool :=
  match s with
  | EmptyString => false
  | String a r => Ascii.eqb a c || has_char c r
  end.

(** ** Scenarios on the concrete device *)

Module Scenario.

Import Device.

(** A chooser whose open request is pending, with the caller's callback. *)
Definition pending : chooser :=
  {| select_code := 200000; save_code := 300000; selection := None;
     _handle_selection := OnSelection 1; selected_mime_type := Some "" |}.

(** The files at the start: the external cache directory of the
    application is there. *)
Definition storage : gmap string fnode :=
  {[ "/storage/emulated/0/Android/data/org.test/cache" := Dir ]}.

Definition start (P : Android) : @state P :=
  @Build_state P pending storage [].

Definition a_txt : uri := file_uri "/sdcard/a.txt".
Definition b_txt : uri := file_uri "/sdcard/b.txt".
Definition c_txt : uri := file_uri "/sdcard/c.txt".

(** A content URI of a provider the module has no strategy for. *)
Definition foreign : uri := content_uri "com.example.files" "/item/7".

(** Platform version 28 and 29, with providers that refuse every query. *)
Definition device28 : Android := android 28 no_provider None readable.
Definition device29 : Android := android 29 no_provider None readable.

(** The same, with providers that answer every query with no row. *)
Definition quiet28 : Android := android 28 empty_provider None readable.
Definition quiet29 : Android := android 29 empty_provider None readable.

(** Platform version 28 with such providers, on which every permission
    grant is refused. *)
Definition denied_device : Android :=
  android_with (λ _, Raise JavaException) 28 empty_provider None readable.

(** A result with one picked URI: no clip data. *)
Definition picked_one (P : Android) (u : @Uri P) : @Intent P :=
  @Build_Intent P None (Some u).

(** A result with several picked URIs in the clip data. *)
Definition picked_many (P : Android) (items : list (@Uri P)) (data : option (@Uri P))
    : @Intent P :=
  @Build_Intent P (Some (map Some items)) data.

(** A download document and the three locations of its row. *)
Definition download_1034 : uri :=
  content_uri "com.android.providers.downloads.documents" "/document/1034".

Definition one_cell (column value : string) : Cursor :=
  {| columnNames := [column]; rows := [[Some value]] |}.

(** The downloads providers of the specification's example: the document
    itself and the first location raise, the second has no row, the third
    holds the path. *)
Definition downloads_provider : provider :=
  λ u projection _ _ _,
    if bool_decide (u = content_uri "downloads" "/my_downloads/1034") then
      Ok (Some {| columnNames := default [] projection; rows := [] |})
    else if bool_decide (u = content_uri "downloads" "/all_downloads/1034") then
      Ok (Some (one_cell "_data" "data/foo.txt"))
    else Raise JavaException.

Definition downloads_device : Android := android 28 downloads_provider None readable.

(** A provider that rejects a scalar [selection_args] and has no row for
    the list form. *)
Definition strict_provider : provider :=
  λ _ projection _ args _,
    match args with
    | ArgScalar _ =>
        match projection with
        | Some ["_data"] => Raise JavaException
        | _ => Ok (Some (one_cell "_display_name" "report.pdf"))
        end
    | ArgList _ => Ok (Some {| columnNames := default [] projection; rows := [] |})
    end.

Definition strict_device : Android := android 28 strict_provider None readable.

(** A provider with two rows of two columns. *)
Definition table : Cursor :=
  {| columnNames := ["_id"; "_data"];
     rows := [[Some "1"; Some "a.txt"]; [Some "2"; Some "b.txt"]] |}.

Definition table_device : Android :=
  android 28 (λ _ _ _ _ _, Ok (Some table)) None readable.

(** The image document 42 and a media provider that knows its row. *)
Definition image_42 : uri :=
  content_uri "com.android.providers.media.documents" "/document/image:42".

Definition media_provider : provider :=
  λ u projection selection args _,
    if bool_decide (u = content_uri "media" "/external/images/media") then
      match projection, selection, args with
      | Some ["_data"], Some "_id=?", ArgScalar (Some "42") =>
          Ok (Some (one_cell "_data" "/sdcard/DCIM/42.jpg"))
      | _, _, _ => Raise JavaException
      end
    else Raise JavaException.

Definition media_device : Android := android 28 media_provider None readable.



End Scenario.

(** ** The rest of the class: [_save_file] and [_file_selection_dialog] *)

(** What [_save_file] reads from the package manager and from
    [Environment]: the label of the application and the path of the
    external storage directory. *)
Class AndroidApp : Type := {
  getApplicationLabel : string;
  getExternalStorageDirectory : string
}.

Section SaveAndDialog.

Context `{P : Android} {Q : AndroidApp}.

(** [posixpath.join(a, b, c)]: the parts are joined one after the other. *)
Definition join3 (a b c : string) : string := Py.join (Py.join a b) c.

(** [_save_file]: of the keyword arguments only [on_selection] is read. *)
Definition _save_file (kwargs : open_kwargs) : M unit :=
  let* c := get_self in
  let handler := default (_handle_selection c) (on_selection kwargs) in
  set_self {| select_code := select_code c; save_code := save_code c;
              selection := selection c; _handle_selection := handler;
              selected_mime_type := selected_mime_type c |};;
  let app_name := getApplicationLabel in
  let documents_folder :=
    join3 getExternalStorageDirectory DIRECTORY_DOCUMENTS app_name in
  let* there := path_exists documents_folder in
  (if negb there then os_mkdir documents_folder else ret tt);;
  let temp_file := Py.join documents_folder "__temp_file__" in
  handle_selection [SPath temp_file].

(** [_file_selection_dialog]: [mode] is [kwargs.pop('mode', None)], the
    other keyword arguments are passed on. *)
Definition _file_selection_dialog (mode : option string) (kwargs : open_kwargs)
    : M unit :=
  if bool_decide (mode = Some "open") then _open_file kwargs
  else if bool_decide (mode = Some "save") then _save_file kwargs
  else ret tt.

End SaveAndDialog.

(** The number of occurrences of [c] in [s]. *)
Fixpoint count_char (c : ascii) (s : string) : nat :=
  match s with
  | EmptyString => 0
  | String a r => (if Ascii.eqb a c then 1 else 0) + count_char c r
  end.

(** ** More scenarios on the concrete device *)

Module Cases.

Import Device Scenario.

Definition notes_app : AndroidApp :=
  {| getApplicationLabel := "Notes";
     getExternalStorageDirectory := "/storage/emulated/0" |}.

(** Providers that answer every query with a null cursor. *)
Definition null_provider : provider := λ _ _ _ _ _, Ok None.

Definition null_device : Android := android 28 null_provider None readable.

(** A table with a NULL cell. *)
Definition holed_table : Cursor :=
  {| columnNames := ["_id"; "_data"];
     rows := [[Some "1"; None]; [Some "2"; Some "b.txt"]] |}.

Definition holed_device : Android :=
  android 28 (λ _ _ _ _ _, Ok (Some holed_table)) None readable.

(** A download document whose id is not a row number. *)
Definition download_raw : uri :=
  content_uri "com.android.providers.downloads.documents"
    "/document/raw:/storage/emulated/0/Download/x.pdf".

(** Platform version 29 on which no stream can be opened. *)
Definition unreadable29 : Android :=
  android 29 no_provider None (λ _, Raise JavaException).

(** A provider that rejects every [_data] query and knows the display
    name. *)
Definition name_only_provider : provider :=
  λ _ projection _ _ _,
    match projection with
    | Some ["_display_name"] => Ok (Some (one_cell "_display_name" "report.pdf"))
    | _ => Raise JavaException
    end.

Definition name_only_device : Android := android 28 name_only_provider None readable.

(** A provider that holds the path of every URI. *)
Definition data_provider : provider :=
  λ _ _ _ _ _, Ok (Some (one_cell "_data" "/sdcard/Download/x.pdf")).

Definition data_device : Android := android 28 data_provider None readable.

(** A result with neither clip data nor data URI, and one with an empty
    clip. *)
Definition empty_result (P : Android) : @Intent P := @Build_Intent P None None.

Definition empty_clip (P : Android) : @Intent P := @Build_Intent P (Some []) None.

(** Keyword arguments of open requests: for images, several at once; with
    no filter; with an empty list of filters. *)
Definition open_images : open_kwargs :=
  {| on_selection := Some (OnSelection 2); filters := Some ["image"; "video"];
     multiple := Some true |}.

Definition open_any : open_kwargs :=
  {| on_selection := Some (OnSelection 1); filters := None; multiple := None |}.

Definition open_no_filter : open_kwargs :=
  {| on_selection := Some (OnSelection 3); filters := Some []; multiple := None |}.

(** A file URI whose path ends with a separator. *)
Definition a_folder : uri := file_uri "/sdcard/Pictures/".

(** The pending chooser when the documents directory is there. *)
Definition documents_ready (P : Android) : @state P :=
  @Build_state P pending {[ "/storage/emulated/0/Documents" := Dir ]} [].

End Cases.

(** * Properties *)

(** Small checks of the string model against the Python results. *)
Example join_plain : Py.join "/storage/emulated/0" "a.txt" = "/storage/emulated/0/a.txt".
Proof. reflexivity. Qed.
Example join_absolute : Py.join "/storage/emulated/0" "/etc/hosts" = "/etc/hosts".
Proof. reflexivity. Qed.
Example join_trailing : Py.join "/cache/" "a" = "/cache/a".
Proof. reflexivity. Qed.
Example join_empty_name : Py.join "/downloads" "" = "/downloads/".
Proof. reflexivity. Qed.
Example basename_path : Py.basename "/storage/emulated/0/a.txt" = "a.txt".
Proof. reflexivity. Qed.
Example basename_dir : Py.basename "/storage/" = "".
Proof. reflexivity. Qed.
Example dirname_path :
  Py.dirname "/storage/emulated/0/Documents" = "/storage/emulated/0".
Proof. reflexivity. Qed.
Example dirname_root : Py.dirname "/cache" = "/".
Proof. reflexivity. Qed.
Example dirname_doubled : Py.dirname "/a//b" = "/a".
Proof. reflexivity. Qed.
Example dirname_relative : Py.dirname "a.txt" = "".
Proof. reflexivity. Qed.
Example rstrip_sep_trailing : Py.rstrip_sep "/cache//" = "/cache".
Proof. reflexivity. Qed.
Example split_two : Py.split ":" "primary:Download/a.txt" = ["primary"; "Download/a.txt"].
Proof. reflexivity. Qed.
Example split_three : Py.split ":" "a:b:c" = ["a"; "b"; "c"].
Proof. reflexivity. Qed.
Example split_none : Py.split ":" "" = [""].
Proof. reflexivity. Qed.
Example contains_token : Py.contains "/storage/1234-5678" "1234-5678" = true.
Proof. reflexivity. Qed.
Example contains_empty : Py.contains "/storage/1234-5678" "" = true.
Proof. reflexivity. Qed.
Example lower_mixed : Py.lower "Content" = "content".
Proof. reflexivity. Qed.

(** ** Runs that only add resolution events *)

Section WriterLaws.

Context `{P : Android}.

Lemma emit_nil (st : state) : emit [] st = st.
Proof. destruct st; unfold emit; simpl. by rewrite app_nil_r. Qed.

Lemma emit_app (e1 e2 : list event) (st : state) :
  emit e2 (emit e1 st) = emit (e1 ++ e2) st.
Proof. unfold emit; simpl. by rewrite app_assoc. Qed.

Lemma writer_ret {A} (a : A) : writer (ret a) (Ok a) [].
Proof. intros st. unfold ret. by rewrite emit_nil. Qed.

Lemma writer_raise {A} (e : exn) : writer (raise (A:=A) e) (Raise e) [].
Proof. intros st. unfold raise. by rewrite emit_nil. Qed.

Lemma writer_lift {A} (r : result A) : writer (lift r) r [].
Proof. intros st. unfold lift. by rewrite emit_nil. Qed.

Lemma writer_log (ev : event) : writer (log ev) (Ok tt) [ev].
Proof. by intros st. Qed.

Lemma writer_bind_ok {A B} (m : M A) (k : A → M B) a e1 r e2 :
  writer m (Ok a) e1 → writer (k a) r e2 → writer (bind m k) r (e1 ++ e2).
Proof.
  intros Hm Hk st. unfold bind. rewrite Hm, Hk. by rewrite emit_app.
Qed.

Lemma writer_bind_raise {A B} (m : M A) (k : A → M B) e e1 :
  writer m (Raise e) e1 → writer (bind m k) (Raise e) e1.
Proof. intros Hm st. unfold bind. by rewrite Hm. Qed.

Lemma writer_try_ok {A} (m : M A) caught h a e1 :
  writer m (Ok a) e1 → writer (try_except m caught h) (Ok a) e1.
Proof. intros Hm st. unfold try_except. by rewrite Hm. Qed.

Lemma writer_try_caught {A} (m : M A) caught h e e1 r e2 :
  writer m (Raise e) e1 → caught e = true → writer (h e) r e2 →
  writer (try_except m caught h) r (e1 ++ e2).
Proof.
  intros Hm Hc Hh st. unfold try_except. rewrite Hm, Hc, Hh. by rewrite emit_app.
Qed.

Lemma writer_try_uncaught {A} (m : M A) caught h e e1 :
  writer m (Raise e) e1 → caught e = false →
  writer (try_except m caught h) (Raise e) e1.
Proof. intros Hm Hc st. unfold try_except. by rewrite Hm, Hc. Qed.

Lemma writer_finally_ok {A} (body : M A) var0 final a e1 r e2 :
  writer body (Ok a) e1 → writer (final a) r e2 →
  writer (try_finally body var0 final) r (e1 ++ e2).
Proof.
  intros Hb Hf st. unfold try_finally. rewrite Hb, Hf. by rewrite emit_app.
Qed.

Lemma writer_finally_raise {A} (body : M A) var0 final e e1 r e2 :
  writer body (Raise e) e1 → writer (final var0) r e2 →
  writer (try_finally body var0 final)
         (match r with Ok _ => Raise e | Raise e' => Raise e' end) (e1 ++ e2).
Proof.
  intros Hb Hf st. unfold try_finally. rewrite Hb, Hf.
  rewrite emit_app. by destruct r.
Qed.

(** A writer is determined by its run from [initial]. *)
Lemma writer_outcome {A} (m : M A) r evs : writer m r evs → outcome m = r.
Proof. intros H. unfold outcome. by rewrite H. Qed.

Lemma writer_events {A} (m : M A) r evs : writer m r evs → events m = evs.
Proof. intros H. unfold events. by rewrite H. Qed.

Lemma is_writer_spec {A} (m : M A) :
  is_writer m → writer m (outcome m) (events m).
Proof.
  intros (r & evs & H & _).
  by rewrite (writer_outcome _ _ _ H), (writer_events _ _ _ H).
Qed.

Lemma is_writer_events {A} (m : M A) :
  is_writer m → Forall resolution_event (events m).
Proof. intros (r & evs & H & Hev). by rewrite (writer_events _ _ _ H). Qed.

Lemma is_writer_ret {A} (a : A) : is_writer (ret a).
Proof. eexists _, _. split; [apply writer_ret | constructor]. Qed.

Lemma is_writer_raise {A} (e : exn) : is_writer (raise (A:=A) e).
Proof. eexists _, _. split; [apply writer_raise | constructor]. Qed.

Lemma is_writer_lift {A} (r : result A) : is_writer (lift r).
Proof. eexists _, _. split; [apply writer_lift | constructor]. Qed.

Lemma is_writer_log (ev : event) : resolution_event ev → is_writer (log ev).
Proof. intros H. eexists _, _. split; [apply writer_log | by repeat constructor]. Qed.

Lemma is_writer_bind {A B} (m : M A) (k : A → M B) :
  is_writer m → (∀ a, is_writer (k a)) → is_writer (bind m k).
Proof.
  intros ([a|e] & e1 & Hm & H1) Hk.
  - destruct (Hk a) as (r & e2 & Ha & H2). eexists _, _.
    split; [by eapply writer_bind_ok | by apply Forall_app].
  - eexists _, _. split; [by eapply writer_bind_raise | done].
Qed.

Lemma is_writer_try {A} (m : M A) caught h :
  is_writer m → (∀ e, is_writer (h e)) → is_writer (try_except m caught h).
Proof.
  intros ([a|e] & e1 & Hm & H1) Hh.
  - eexists _, _. split; [by eapply writer_try_ok | done].
  - destruct (caught e) eqn:Hc.
    + destruct (Hh e) as (r & e2 & He & H2). eexists _, _.
      split; [by eapply writer_try_caught | by apply Forall_app].
    + eexists _, _. split; [by eapply writer_try_uncaught | done].
Qed.

Lemma is_writer_finally {A} (body : M A) var0 final :
  is_writer body → (∀ a, is_writer (final a)) →
  is_writer (try_finally body var0 final).
Proof.
  intros ([a|e] & e1 & Hb & H1) Hf.
  - destruct (Hf a) as (r & e2 & Ha & H2). eexists _, _.
    split; [by eapply writer_finally_ok | by apply Forall_app].
  - destruct (Hf var0) as (r & e2 & Ha & H2). eexists _, _.
    split; [by eapply writer_finally_raise | by apply Forall_app].
Qed.

Lemma is_writer_attr {A} (x : option A) : is_writer (attr x).
Proof. destruct x; [apply is_writer_ret | apply is_writer_raise]. Qed.

End WriterLaws.

Ltac writer_step :=
  first
    [ apply is_writer_bind; [| intros ?]
    | apply is_writer_try; [| intros ?]
    | apply is_writer_finally; [| intros ?]
    | apply is_writer_ret | apply is_writer_raise | apply is_writer_lift
    | apply is_writer_log; exact I | apply is_writer_attr
    | match goal with |- is_writer (match ?x with _ => _ end) => destruct x end
    | match goal with |- is_writer (if ?b then _ else _) => destruct b end ].

Section ResolutionWriters.

Context `{P : Android}.

Lemma parse_content_is_writer uri projection sel args sort index_all :
  is_writer (_parse_content uri projection sel args sort index_all).
Proof.
  unfold _parse_content, grant, resolver_query, first_column, join_cells.
  repeat writer_step.
Qed.

Lemma external_documents_is_writer uri : is_writer (_handle_external_documents uri).
Proof.
  unfold _handle_external_documents, document_id, unpack_pair.
  repeat writer_step.
Qed.

Lemma media_documents_is_writer uri : is_writer (_handle_media_documents uri).
Proof.
  unfold _handle_media_documents, document_id, unpack_pair.
  repeat writer_step.
Qed.

Lemma try_candidates_is_writer attempt uris path :
  (∀ u, is_writer (attempt u)) → is_writer (try_candidates attempt uris path).
Proof.
  intros Ha. revert path. induction uris as [|u uris IH]; intros path; simpl.
  - apply is_writer_ret.
  - apply is_writer_bind.
    + apply is_writer_try; [apply Ha|]. intros e. repeat writer_step.
    + intros p. destruct (Py.truthy p); [apply is_writer_ret | apply IH].
Qed.

Lemma downloads_display_name_is_writer uri : is_writer (downloads_display_name uri).
Proof.
  unfold downloads_display_name, query_display_name, join_opt.
  apply is_writer_bind; [apply parse_content_is_writer|]. intros p.
  repeat writer_step.
Qed.

Lemma downloads_known_locations_is_writer uri :
  is_writer (downloads_known_locations uri).
Proof.
  unfold downloads_known_locations.
  apply is_writer_bind; [unfold document_id; repeat writer_step|]. intros file_id.
  apply is_writer_bind; [unfold long_value; repeat writer_step|]. intros row.
  apply is_writer_bind.
  - apply try_candidates_is_writer. intros u. apply parse_content_is_writer.
  - intros p. destruct (negb (Py.truthy p)); [|apply is_writer_ret].
    apply try_candidates_is_writer. intros u. apply parse_content_is_writer.
Qed.

Lemma downloads_documents_is_writer uri : is_writer (_handle_downloads_documents uri).
Proof.
  unfold _handle_downloads_documents.
  apply is_writer_try; [apply downloads_display_name_is_writer|].
  intros e. apply is_writer_bind; [by apply is_writer_log|]. intros _.
  apply downloads_known_locations_is_writer.
Qed.

Lemma parse_content_scheme_is_writer _uri uri sel file_name path :
  is_writer (parse_content_scheme _uri uri sel file_name path).
Proof.
  unfold parse_content_scheme. apply is_writer_finally.
  - apply is_writer_try; [|intros e]; apply parse_content_is_writer.
  - intros p. destruct (negb (Py.truthy p));
      [apply parse_content_is_writer | apply is_writer_ret].
Qed.

Lemma resolve_uri_is_writer uri : is_writer (_resolve_uri uri).
Proof.
  unfold _resolve_uri.
  apply is_writer_bind; [apply is_writer_attr|]. intros u.
  apply is_writer_bind; [apply is_writer_attr|]. intros s.
  case_bool_decide.
  { apply is_writer_bind; [apply external_documents_is_writer|].
    intros p. apply is_writer_ret. }
  apply is_writer_bind.
  - repeat case_bool_decide.
    + apply is_writer_bind; [apply downloads_documents_is_writer|].
      intros d. apply is_writer_ret.
    + apply is_writer_bind; [apply media_documents_is_writer|].
      intros r. apply is_writer_ret.
    + apply is_writer_ret.
  - intros v. destruct (_ && _); [apply parse_content_scheme_is_writer|].
    case_bool_decide; apply is_writer_ret.
Qed.

End ResolutionWriters.

Section Listener.

Context `{P : Android}.

Lemma callbacks_app (tr1 tr2 : list event) :
  callbacks (tr1 ++ tr2) = callbacks tr1 ++ callbacks tr2.
Proof. unfold callbacks. apply omap_app. Qed.

Lemma callbacks_resolution (evs : list event) :
  Forall resolution_event evs → callbacks evs = [].
Proof.
  induction 1 as [|ev evs Hev _ IH]; [done|].
  unfold callbacks in *. destruct ev; simpl in *; done.
Qed.

Lemma callbacks_emit (evs : list event) (st : state) :
  Forall resolution_event evs → callbacks (trace (emit evs st)) = callbacks (trace st).
Proof.
  intros H. simpl. rewrite callbacks_app, (callbacks_resolution _ H).
  by rewrite app_nil_r.
Qed.

Lemma resolve_items_is_writer items acc : is_writer (resolve_items items acc).
Proof.
  revert acc. induction items as [|item items IH]; intros acc; simpl.
  - apply is_writer_ret.
  - apply is_writer_bind; [apply resolve_uri_is_writer|]. intros ele. apply IH.
Qed.

Lemma resolve_selection_is_writer data : is_writer (resolve_selection data).
Proof.
  unfold resolve_selection. apply is_writer_try.
  - apply is_writer_bind; [apply is_writer_attr|]. intros clip.
    apply resolve_items_is_writer.
  - intros e. apply is_writer_bind; [apply resolve_uri_is_writer|].
    intros ele. apply is_writer_ret.
Qed.

End Listener.

(** ** Strings and paths *)

Lemma append_cons (c : ascii) (s t : string) : String c s +:+ t = String c (s +:+ t).
Proof. reflexivity. Qed.

Lemma append_nil (t : string) : "" +:+ t = t.
Proof. reflexivity. Qed.

Lemma nonempty_true (s : string) : Py.nonempty s = true ↔ s ≠ "".
Proof. by destruct s. Qed.

Lemma join_relative (a b : string) :
  Py.startswith_sep b = false → a ≠ "" → Py.endswith_sep a = false →
  Py.join a b = a +:+ "/" +:+ b.
Proof.
  intros Hb Ha He. unfold Py.join. rewrite Hb, He.
  apply nonempty_true in Ha. by rewrite Ha.
Qed.

Lemma has_char_append (c : ascii) (a b : string) :
  has_char c (a +:+ b) = has_char c a || has_char c b.
Proof.
  induction a as [|x a IH]; [done|].
  rewrite append_cons. simpl. by rewrite IH, orb_assoc.
Qed.

Lemma basename_from_no_sep (cur p : string) :
  has_char "/" cur = false → has_char "/" (Py.basename_from cur p) = false.
Proof.
  revert cur. induction p as [|c p IH]; intros cur Hcur; simpl; [done|].
  destruct (Py.is_sep c) eqn:Hc; [by apply IH|].
  apply IH. rewrite has_char_append, Hcur. simpl.
  unfold Py.is_sep in Hc. by rewrite Hc.
Qed.

Lemma startswith_no_sep (b : string) :
  has_char "/" b = false → Py.startswith_sep b = false.
Proof.
  destruct b as [|c b]; [done|]. simpl.
  intros [Hc _]%orb_false_iff. by unfold Py.is_sep.
Qed.

Lemma endswith_sep_append (a b : string) :
  b ≠ "" → Py.endswith_sep (a +:+ b) = Py.endswith_sep b.
Proof.
  intros Hb. induction a as [|x a IH]; [done|].
  rewrite append_cons. simpl.
  destruct (a +:+ b) as [|y r] eqn:Hab; [|done].
  destruct a; [by rewrite append_nil in Hab | by rewrite append_cons in Hab].
Qed.

Lemma append_nonempty (a b : string) : b ≠ "" → a +:+ b ≠ "".
Proof. intros Hb. destruct a; [by rewrite append_nil | by rewrite append_cons]. Qed.

Lemma length_append (a b : string) :
  String.length (a +:+ b) = (String.length a + String.length b)%nat.
Proof. induction a as [|x a IH]; [done|]. rewrite append_cons. simpl. by rewrite IH. Qed.

Lemma append_assoc (a b c : string) : (a +:+ b) +:+ c = a +:+ b +:+ c.
Proof. induction a as [|x a IH]; [done|]. rewrite !append_cons. by rewrite IH. Qed.

Lemma append_empty (a : string) : a +:+ "" = a.
Proof. induction a as [|x a IH]; [done|]. rewrite append_cons. by rewrite IH. Qed.

Lemma endswith_no_sep (s : string) :
  has_char "/" s = false → Py.endswith_sep s = false.
Proof.
  induction s as [|c s IH]; [done|]. simpl.
  intros [Hc Hs]%orb_false_iff. destruct s; [by unfold Py.is_sep|by apply IH].
Qed.

Lemma rstrip_sep_id (s : string) :
  Py.endswith_sep s = false → Py.rstrip_sep s = s.
Proof.
  induction s as [|c s IH]; [done|]. simpl.
  destruct s as [|c' s']; [intros ->; done|].
  intros H. by rewrite IH.
Qed.

Lemma rstrip_sep_append_sep (a : string) :
  Py.rstrip_sep (a +:+ "/") = Py.rstrip_sep a.
Proof. induction a as [|c a IH]; [done|]. rewrite append_cons. simpl. by rewrite IH. Qed.

Lemma endswith_sep_rstrip (s : string) :
  Py.endswith_sep (Py.rstrip_sep s) = false.
Proof.
  induction s as [|c s IH]; [done|]. simpl.
  destruct (Py.rstrip_sep s) as [|c' r] eqn:Hr.
  - by destruct (Py.is_sep c) eqn:Hc; simpl.
  - done.
Qed.

Lemma endswith_sep_split (s : string) :
  Py.endswith_sep s = true → ∃ a, s = a +:+ "/".
Proof.
  induction s as [|c s IH]; [done|]. simpl.
  destruct s as [|c' s'].
  - unfold Py.is_sep. intros ->%Ascii.eqb_eq. by exists "".
  - intros [a Ha]%IH. exists (String c a). by rewrite append_cons, <- Ha.
Qed.

Lemma head_from_no_sep (head cur t : string) :
  has_char "/" t = false → Py.head_from head cur t = head.
Proof.
  revert cur. induction t as [|c t IH]; intros cur; [done|]. simpl.
  intros [Hc Ht]%orb_false_iff. unfold Py.is_sep. rewrite Hc. by apply IH.
Qed.

Lemma head_from_sep (head cur s t : string) :
  Py.head_from head cur (s +:+ "/" +:+ t) =
    Py.head_from (head +:+ cur +:+ s +:+ "/") "" t.
Proof.
  revert head cur. induction s as [|c s IH]; intros head cur.
  - rewrite append_nil. done.
  - rewrite append_cons. simpl. destruct (Py.is_sep c) eqn:Hc.
    + rewrite IH. unfold Py.is_sep in Hc. apply Ascii.eqb_eq in Hc as ->.
      f_equal. rewrite !append_assoc. done.
    + rewrite IH. f_equal. rewrite !append_assoc. done.
Qed.

Lemma dirname_join (a name : string) :
  has_char "/" name = false → name ≠ "" →
  Py.dirname (Py.join a name) =
    if Py.nonempty (Py.rstrip_sep a) then Py.rstrip_sep a else a.
Proof.
  intros Hname Hne. unfold Py.join. rewrite startswith_no_sep by done.
  unfold Py.dirname.
  destruct a as [|c a']; [simpl; by rewrite head_from_no_sep|].
  set (a := String c a'). simpl negb.
  destruct (Py.endswith_sep a) eqn:He; simpl orb; cbv iota.
  - apply endswith_sep_split in He as [b Hb]. rewrite Hb.
    pose proof (head_from_sep "" "" b name) as H. rewrite append_assoc.
    rewrite H, !append_nil, head_from_no_sep by done. done.
  - pose proof (head_from_sep "" "" a name) as H.
    rewrite H, !append_nil, head_from_no_sep by done.
    rewrite rstrip_sep_append_sep, rstrip_sep_id by done. done.
Qed.

Lemma join_no_trailing_sep (a name : string) :
  has_char "/" name = false → name ≠ "" →
  Py.endswith_sep (Py.join a name) = false ∧ Py.join a name ≠ "".
Proof.
  intros Hname Hne. unfold Py.join. rewrite startswith_no_sep by done.
  destruct (negb (Py.nonempty a) || Py.endswith_sep a).
  - split; [|by apply append_nonempty].
    rewrite endswith_sep_append by done. by apply endswith_no_sep.
  - split; [|by apply append_nonempty, append_nonempty].
    rewrite !endswith_sep_append by done. by apply endswith_no_sep.
Qed.

(** The file system. *)

Lemma stat_plain (f : gmap string fnode) (p : string) :
  Py.endswith_sep p = false → stat f p = f !! p.
Proof. intros H. unfold stat. by rewrite H. Qed.

Lemma stat_rstrip (f : gmap string fnode) (a : string) :
  Py.nonempty (Py.rstrip_sep a) = true →
  stat f a = Some Dir ↔ stat f (Py.rstrip_sep a) = Some Dir.
Proof.
  intros Hn. rewrite (stat_plain f (Py.rstrip_sep a)) by apply endswith_sep_rstrip.
  unfold stat. destruct (Py.endswith_sep a) eqn:He.
  - rewrite Hn. destruct (f !! Py.rstrip_sep a) as [[|c]|]; done.
  - by rewrite rstrip_sep_id.
Qed.

Lemma parent_is_dir_join (f : gmap string fnode) (a name : string) :
  has_char "/" name = false → name ≠ "" →
  parent_is_dir f (Py.join a name) =
    negb (Py.nonempty a) || bool_decide (stat f a = Some Dir).
Proof.
  intros Hname Hne. unfold parent_is_dir, parent.
  destruct (join_no_trailing_sep a name Hname Hne) as [He _].
  rewrite rstrip_sep_id, dirname_join by done.
  destruct (Py.nonempty (Py.rstrip_sep a)) eqn:Hn.
  - rewrite Hn. simpl. destruct a as [|c a']; [done|]. simpl negb. simpl orb.
    apply bool_decide_ext. symmetry. by apply stat_rstrip.
  - done.
Qed.

Lemma stat_dir_insert (f : gmap string fnode) (k d : string) (v : fnode) :
  f !! k ≠ Some Dir → stat f d = Some Dir → stat (<[k := v]> f) d = Some Dir.
Proof.
  unfold stat. intros Hk.
  destruct (Py.endswith_sep d).
  - destruct (Py.nonempty (Py.rstrip_sep d)); [|done].
    destruct (f !! Py.rstrip_sep d) as [[|c]|] eqn:Hd; try done.
    intros _. rewrite lookup_insert_ne by congruence. by rewrite Hd.
  - intros Hd. rewrite lookup_insert_ne by congruence. done.
Qed.

Lemma stat_dir_delete (f : gmap string fnode) (k d : string) :
  f !! k ≠ Some Dir → stat f d = Some Dir → stat (delete k f) d = Some Dir.
Proof.
  unfold stat. intros Hk.
  destruct (Py.endswith_sep d).
  - destruct (Py.nonempty (Py.rstrip_sep d)); [|done].
    destruct (f !! Py.rstrip_sep d) as [[|c]|] eqn:Hd; try done.
    intros _. rewrite lookup_delete_ne by congruence. by rewrite Hd.
  - intros Hd. rewrite lookup_delete_ne by congruence. done.
Qed.

Lemma parent_is_dir_insert (f : gmap string fnode) (k p : string) (v : fnode) :
  f !! k ≠ Some Dir → parent_is_dir f p = true → parent_is_dir (<[k := v]> f) p = true.
Proof.
  unfold parent_is_dir. intros Hk [H|H]%orb_true_iff; [by rewrite H|].
  apply bool_decide_eq_true in H. apply orb_true_iff. right.
  apply bool_decide_eq_true. by apply stat_dir_insert.
Qed.

Lemma parent_is_dir_delete (f : gmap string fnode) (k p : string) :
  f !! k ≠ Some Dir → parent_is_dir f p = true → parent_is_dir (delete k f) p = true.
Proof.
  unfold parent_is_dir. intros Hk [H|H]%orb_true_iff; [by rewrite H|].
  apply bool_decide_eq_true in H. apply orb_true_iff. right.
  apply bool_decide_eq_true. by apply stat_dir_delete.
Qed.

Lemma cache_directory_shape (cache_dir : string) :
  Py.join cache_dir "FromSharedStorage" ≠ "" ∧
  Py.endswith_sep (Py.join cache_dir "FromSharedStorage") = false.
Proof.
  destruct (join_no_trailing_sep cache_dir "FromSharedStorage") as [H1 H2]; done.
Qed.

Ltac parent_step :=
  first [ assumption
        | apply parent_is_dir_insert; [simplify_map_eq; congruence|]
        | apply parent_is_dir_delete; [simplify_map_eq; congruence|] ].

(** ** The listener *)

Section CacheCopy.

Context `{P : Android}.

Lemma cache_file_shape (cache_dir p : string) :
  cache_file_of cache_dir p =
    Py.join cache_dir "FromSharedStorage" +:+ "/" +:+ Py.basename p.
Proof.
  destruct (cache_directory_shape cache_dir) as [Hne Hend].
  unfold cache_file_of. apply join_relative; [|done..].
  by apply startswith_no_sep, basename_from_no_sep.
Qed.

Lemma cache_file_is_not_the_directory (cache_dir p : string) :
  cache_file_of cache_dir p ≠ Py.join cache_dir "FromSharedStorage".
Proof.
  rewrite cache_file_shape.
  intros Heq. apply (f_equal String.length) in Heq.
  rewrite !length_append in Heq. simpl in Heq. lia.
Qed.

(** The branch from the point where the name of the cache copy is known. *)
Lemma copy_to_cache_unfold p rest data cache_dir st :
  getExternalCacheDir = Some cache_dir →
  copy_to_cache (SPath p :: rest) data st =
    (let loc := Py.join cache_dir "FromSharedStorage" in
     let cf := cache_file_of cache_dir p in
     let* there := path_exists loc in
     (if negb there then os_mkdir loc else ret tt);;
     let* stale := path_exists cf in
     (if stale then os_remove cf else ret tt);;
     let* rs := open_input_stream (getData data) in
     let* ws := FileOutputStream cf in
     FileUtils_copy rs ws;;
     handle_selection [SPath cf]) st.
Proof. intros H. unfold copy_to_cache, basename_first, attr, bind at 1 2, ret. by rewrite H. Qed.

Lemma copy_to_cache_ok sel data st st' :
  copy_to_cache sel data st = (Ok tt, st') →
  ∃ p rest cache_dir bytes,
    sel = SPath p :: rest ∧ getExternalCacheDir = Some cache_dir ∧
    openInputStream (getData data) = Ok bytes ∧
    self st' = self st ∧
    trace st' = trace st ++
      [EOpenInputStream (getData data);
       ECallback (_handle_selection (self st)) [SPath (cache_file_of cache_dir p)]] ∧
    fs st' !! cache_file_of cache_dir p = Some (File bytes) ∧
    is_Some (fs st' !! Py.join cache_dir "FromSharedStorage") ∧
    Py.endswith_sep (cache_file_of cache_dir p) = false ∧
    parent_is_dir (fs st') (cache_file_of cache_dir p) = true.
Proof.
  destruct sel as [|[p| |] rest]; try done.
  destruct getExternalCacheDir as [cache_dir|] eqn:Hcd;
    [|by unfold copy_to_cache, basename_first, attr, bind, ret, raise; rewrite Hcd].
  rewrite (copy_to_cache_unfold p rest data cache_dir st) by done.
  pose proof (cache_file_is_not_the_directory cache_dir p) as Hne.
  destruct (cache_directory_shape cache_dir) as [Hloc0 Hlocs].
  intros H. exists p, rest, cache_dir. revert H Hne Hloc0 Hlocs.
  generalize (Py.join cache_dir "FromSharedStorage"). intros loc.
  generalize (cache_file_of cache_dir p). intros cf H Hne Hloc0 Hlocs.
  cbv zeta in H.
  destruct (Py.endswith_sep cf) eqn:Hcfs.
  { unfold FileOutputStream, FileUtils_copy, handle_selection, open_input_stream,
      get_fs, set_fs, get_self, log, lift, bind, ret, raise in H.
    rewrite Hcfs in H. simpl in H. repeat (case_match; simplify_eq/=). }
  unfold path_exists, os_remove in H. unfold stat in H.
  rewrite Hlocs, Hcfs in H.
  unfold os_mkdir, open_input_stream, FileOutputStream,
    FileUtils_copy, handle_selection, attr, get_fs, set_fs, get_self, log, lift,
    bind, ret, raise in H.
  rewrite (rstrip_sep_id loc), Hcfs in H by done.
  apply nonempty_true in Hloc0. rewrite Hloc0 in H. simpl in H.
  repeat (case_match; simplify_eq/=);
    repeat match goal with
      | H : negb (bool_decide _) = false |- _ =>
          apply negb_false_iff, bool_decide_eq_true in H
      | H : negb (bool_decide _) = true |- _ =>
          apply negb_true_iff, bool_decide_eq_false in H
      | H : bool_decide _ = true |- _ => apply bool_decide_eq_true in H
      | H : bool_decide _ = false |- _ => apply bool_decide_eq_false in H
      end;
    (eexists; split_and!; try done);
    try (by rewrite <- app_assoc); try apply lookup_insert_eq;
    try match goal with
    | |- is_Some (<[?a:=_]> _ !! ?l) =>
        destruct (decide (a = l)) as [->|]; simplify_map_eq; by eauto
    end;
    repeat match goal with
      | H : ¬ is_Some _ |- _ => apply eq_None_not_Some in H
      | H : delete ?k _ !! ?k = Some _ |- _ => rewrite lookup_delete_eq in H
      end;
    try congruence;
    repeat parent_step.
Qed.

(** When the cache directory and a cache file of that name are there, the
    branch runs to the callback. *)
Lemma copy_to_cache_runs p rest data cache_dir bytes old st :
  getExternalCacheDir = Some cache_dir →
  openInputStream (getData data) = Ok bytes →
  is_Some (fs st !! Py.join cache_dir "FromSharedStorage") →
  fs st !! cache_file_of cache_dir p = Some (File old) →
  Py.endswith_sep (cache_file_of cache_dir p) = false →
  parent_is_dir (fs st) (cache_file_of cache_dir p) = true →
  ∃ st',
    copy_to_cache (SPath p :: rest) data st = (Ok tt, st') ∧
    trace st' = trace st ++
      [EOpenInputStream (getData data);
       ECallback (_handle_selection (self st)) [SPath (cache_file_of cache_dir p)]].
Proof.
  intros Hcd Hin Hloc Hcf Hcfs Hpar.
  rewrite (copy_to_cache_unfold p rest data cache_dir st) by done.
  destruct (cache_directory_shape cache_dir) as [Hloc0 Hlocs].
  assert (cache_file_of cache_dir p ≠ "") as Hcf0.
  { rewrite cache_file_shape. by apply append_nonempty. }
  revert Hloc Hcf Hcfs Hpar Hloc0 Hlocs Hcf0.
  generalize (Py.join cache_dir "FromSharedStorage"). intros loc.
  generalize (cache_file_of cache_dir p). intros cf Hloc Hcf Hcfs Hpar Hloc0 Hlocs Hcf0.
  cbv zeta.
  unfold path_exists, os_remove. unfold stat. rewrite Hlocs, Hcfs.
  unfold os_mkdir, open_input_stream, FileOutputStream,
    FileUtils_copy, handle_selection, attr, get_fs, set_fs, get_self, log, lift,
    bind, ret, raise.
  rewrite Hcfs, Hin. apply nonempty_true in Hcf0. rewrite Hcf0. simpl.
  rewrite bool_decide_true by done. simpl.
  rewrite Hcf. rewrite bool_decide_true by eauto. simpl. rewrite Hcf. simpl.
  rewrite lookup_delete_eq. rewrite parent_is_dir_delete; [|by rewrite Hcf|done].
  simpl. eexists. split; [done|]. simpl. by rewrite <- app_assoc.
Qed.

Lemma copy_to_cache_raise sel data st e st' :
  copy_to_cache sel data st = (Raise e, st') →
  self st' = self st ∧ callbacks (trace st') = callbacks (trace st).
Proof.
  unfold copy_to_cache, basename_first, path_exists, os_mkdir, os_remove,
    open_input_stream, FileOutputStream, FileUtils_copy, handle_selection,
    attr, get_fs, set_fs, get_self, log, lift, bind, ret, raise.
  intros H.
  repeat (case_match; simplify_eq/=); (split; [done|]);
    rewrite ?callbacks_app, ?app_nil_r; done.
Qed.

End CacheCopy.

Section Dispatch.

Context `{P : Android}.

(** The listener on a result that carries the select code and
    [RESULT_OK]: resolution, then the branch on the platform version. *)
Lemma on_activity_result_matching request_code data st :
  request_code = select_code (self st) →
  _on_activity_result request_code RESULT_OK (Some data) st =
    match outcome (resolve_selection data) with
    | Ok sel =>
        let st1 := selected sel (emit (events (resolve_selection data)) st) in
        if bool_decide (api_version > 28) then copy_to_cache sel data st1
        else handle_selection sel st1
    | Raise e => (Raise e, emit (events (resolve_selection data)) st)
    end.
Proof.
  intros ->. unfold _on_activity_result.
  rewrite bool_decide_false by (by intros []).
  unfold bind at 1, get_self at 1; simpl.
  rewrite bool_decide_true by done.
  unfold bind at 1.
  rewrite (is_writer_spec _ (resolve_selection_is_writer data) st).
  destruct (outcome (resolve_selection data)) as [sel|e]; [|done].
  unfold bind at 1. unfold selected. simpl.
  by case_bool_decide.
Qed.

Lemma on_activity_result_dropped request_code result_code data st :
  data = None ∨ result_code ≠ RESULT_OK ∨ request_code ≠ select_code (self st) →
  _on_activity_result request_code result_code data st = (Ok tt, st).
Proof.
  intros H. unfold _on_activity_result.
  destruct data as [d|]; [|done].
  case_bool_decide; [done|].
  unfold bind, get_self; simpl.
  case_bool_decide; [|done].
  destruct H as [?|[?|?]]; done.
Qed.

(** One delivery keeps the object's codes and callback and adds at most one
    invocation of the callback. *)
Lemma on_activity_result_step request_code result_code data st :
  let st' := (_on_activity_result request_code result_code data st).2 in
  select_code (self st') = select_code (self st) ∧
  save_code (self st') = save_code (self st) ∧
  _handle_selection (self st') = _handle_selection (self st) ∧
  (length (callbacks (trace st')) ≤ S (length (callbacks (trace st))))%nat.
Proof.
  destruct (decide (data = None ∨ result_code ≠ RESULT_OK ∨
                    request_code ≠ select_code (self st))) as [Hd|Hm].
  { rewrite on_activity_result_dropped by done. simpl. split_and!; [done..|lia]. }
  destruct data as [d|]; [|by destruct Hm; left].
  destruct (decide (result_code = RESULT_OK)) as [->|]; [|by destruct Hm; right; left].
  destruct (decide (request_code = select_code (self st))) as [Hrc|];
    [|by destruct Hm; right; right].
  rewrite on_activity_result_matching by done.
  pose proof (is_writer_events _ (resolve_selection_is_writer d)) as Hev.
  destruct (outcome (resolve_selection d)) as [sel|e]; simpl.
  2:{ split_and!; [done..|]. rewrite callbacks_app, (callbacks_resolution _ Hev).
      rewrite app_nil_r. lia. }
  remember (selected sel (emit (events (resolve_selection d)) st)) as st1 eqn:Hst1.
  assert (callbacks (trace st1) = callbacks (trace st) ∧
          select_code (self st1) = select_code (self st) ∧
          save_code (self st1) = save_code (self st) ∧
          _handle_selection (self st1) = _handle_selection (self st))
    as (Hcb & Hsel & Hsave & Hcall).
  { subst st1. simpl. rewrite callbacks_app, (callbacks_resolution _ Hev).
    by rewrite app_nil_r. }
  clear Hst1. case_bool_decide.
  - destruct (copy_to_cache sel d st1) as [[[]|e] st2] eqn:Hc; simpl.
    + apply copy_to_cache_ok in Hc as (p & rest & cd & bytes & _ & _ & _ & Hs & Ht & _ & _).
      rewrite Hs, Ht, callbacks_app, Hcb, length_app. simpl.
      split_and!; [done..|lia].
    + apply copy_to_cache_raise in Hc as [Hs Ht]. rewrite Hs, Ht, Hcb.
      split_and!; [done..|lia].
  - unfold handle_selection, bind, get_self, log. simpl.
    rewrite callbacks_app, Hcb, length_app. simpl. split_and!; [done..|lia].
Qed.

Lemma deliver_keeps_registration results st :
  select_code (self (deliver results st)) = select_code (self st) ∧
  save_code (self (deliver results st)) = save_code (self st) ∧
  _handle_selection (self (deliver results st)) = _handle_selection (self st) ∧
  (length (callbacks (trace (deliver results st)))
   ≤ length (callbacks (trace st)) + length results)%nat.
Proof.
  revert st. induction results as [|[[rc res] data] results IH]; intros st.
  { simpl. split_and!; [done..|lia]. }
  unfold deliver in *. simpl.
  destruct (on_activity_result_step rc res data st) as (H1 & H2 & H3 & H4).
  destruct (IH (_on_activity_result rc res data st).2) as (I1 & I2 & I3 & I4).
  rewrite I1, I2, I3, H1, H2, H3. split_and!; [done..|lia].
Qed.

End Dispatch.

Section ListenerClaims.

Context `{P : Android}.

Lemma selected_callbacks sel evs st :
  Forall resolution_event evs →
  callbacks (trace (selected sel (emit evs st))) = callbacks (trace st).
Proof.
  intros H. simpl. rewrite callbacks_app, (callbacks_resolution _ H).
  by rewrite app_nil_r.
Qed.

(** Claim C4.  A result whose data is [None], whose result code is not
    [RESULT_OK] or whose request code is not the select code leaves the
    whole state as it is: no callback, no grant or query, no change of the
    object or of the files. *)
Theorem dropped_result_has_no_effect request_code result_code data st :
  data = None ∨ result_code ≠ RESULT_OK ∨ request_code ≠ select_code (self st) →
  _on_activity_result request_code result_code data st = (Ok tt, st).
Proof.
  intros Hdrop. unfold _on_activity_result.
  destruct data as [d|]; [|reflexivity].
  case_bool_decide as Hcode; [reflexivity|].
  unfold bind, get_self. simpl.
  case_bool_decide as Htoken; [|reflexivity].
  destruct Hdrop as [Hnone|[Hcancel|Hforeign]]; [discriminate | | ]; contradiction.
Qed.

(** Claim C2, as the code has it.  When the platform version is above 28 and
    a matching result is processed to the end, the first item of the resolved
    selection is a path [p], the whole selection is kept in [self.selection],
    and the callback receives the one-element list that holds the path of
    the cache copy of [p], a file with the bytes of the data URI, whatever
    the length of the selection: the other items are not handed over. *)
Theorem scoped_storage_callback_gets_cache_path_only request_code data st st' :
  api_version > 28 →
  request_code = select_code (self st) →
  _on_activity_result request_code RESULT_OK (Some data) st = (Ok tt, st') →
  ∃ p rest cache_dir bytes,
    outcome (resolve_selection data) = Ok (SPath p :: rest) ∧
    selection (self st') = Some (SPath p :: rest) ∧
    getExternalCacheDir = Some cache_dir ∧
    openInputStream (getData data) = Ok bytes ∧
    callbacks (trace st') =
      callbacks (trace st) ++
      [(_handle_selection (self st), [SPath (cache_file_of cache_dir p)])] ∧
    fs st' !! cache_file_of cache_dir p = Some (File bytes).
Proof.
  intros Hapi Hrc. rewrite on_activity_result_matching by done.
  pose proof (is_writer_events _ (resolve_selection_is_writer data)) as Hev.
  destruct (outcome (resolve_selection data)) as [sel|e]; [|done].
  cbv zeta. rewrite bool_decide_true by done. intros Hc.
  apply copy_to_cache_ok in Hc
    as (p & rest & cache_dir & bytes & -> & Hcd & Hin & Hs & Ht & Hf & _).
  exists p, rest, cache_dir, bytes. split_and!; try done.
  - by rewrite Hs.
  - rewrite Ht, callbacks_app, selected_callbacks by done. done.
Qed.

(** Claim C10.  When the platform version is above 28 and the first item of
    the resolved selection is [None], the listener raises a [TypeError] on
    [basename(selection[0])]: the selection is stored, the callback is not
    invoked. *)
Theorem scoped_storage_null_first_item_raises request_code data rest st :
  api_version > 28 →
  request_code = select_code (self st) →
  outcome (resolve_selection data) = Ok (SNone :: rest) →
  ∃ st',
    _on_activity_result request_code RESULT_OK (Some data) st = (Raise TypeError, st') ∧
    selection (self st') = Some (SNone :: rest) ∧
    callbacks (trace st') = callbacks (trace st).
Proof.
  intros Hapi Hrc Hsel. rewrite on_activity_result_matching by done.
  pose proof (is_writer_events _ (resolve_selection_is_writer data)) as Hev.
  rewrite Hsel. cbv zeta. rewrite bool_decide_true by done.
  eexists. split; [done|]. split; [done|].
  by apply selected_callbacks.
Qed.

(** Claim C1, as the code has it.  No delivery removes or changes the
    registration: across any sequence of delivered results the select code,
    the save code and the stored callback stay what they were, and the
    callback is invoked at most once per delivery.  A matching successful
    result that is processed to the end invokes the callback once, and the
    same result delivered again is processed to the end again and invokes
    the callback a second time. *)
Theorem dispatch_keeps_registration request_code data st st1 :
  request_code = select_code (self st) →
  _on_activity_result request_code RESULT_OK (Some data) st = (Ok tt, st1) →
  (∀ results,
     select_code (self (deliver results st)) = select_code (self st) ∧
     save_code (self (deliver results st)) = save_code (self st) ∧
     _handle_selection (self (deliver results st)) = _handle_selection (self st) ∧
     (length (callbacks (trace (deliver results st)))
      ≤ length (callbacks (trace st)) + length results)%nat) ∧
  ∃ sel st2,
    callbacks (trace st1) =
      callbacks (trace st) ++ [(_handle_selection (self st), sel)] ∧
    _on_activity_result request_code RESULT_OK (Some data) st1 = (Ok tt, st2) ∧
    callbacks (trace st2) =
      callbacks (trace st) ++
      [(_handle_selection (self st), sel); (_handle_selection (self st), sel)].
Proof.
  intros Hrc H1. split; [intros results; apply deliver_keeps_registration|].
  pose proof (on_activity_result_step request_code RESULT_OK (Some data) st)
    as (Hsc & _ & Hcb & _).
  rewrite H1 in Hsc, Hcb. simpl in Hsc, Hcb.
  pose proof (is_writer_events _ (resolve_selection_is_writer data)) as Hev.
  rewrite on_activity_result_matching in H1 by done.
  rewrite on_activity_result_matching by congruence.
  destruct (outcome (resolve_selection data)) as [sel|e]; [|done].
  cbv zeta in *. case_bool_decide.
  - apply copy_to_cache_ok in H1
      as (p & rest & cache_dir & bytes & -> & Hcd & Hin & Hs & Ht & Hf & Hloc &
          Hplain & Hparent).
    destruct (copy_to_cache_runs p rest data cache_dir bytes bytes
                (selected (SPath p :: rest) (emit (events (resolve_selection data)) st1)))
      as (st2 & Hrun & Ht2); [done..|].
    exists [SPath (cache_file_of cache_dir p)], st2. split_and!.
    + rewrite Ht, callbacks_app, selected_callbacks by done. done.
    + done.
    + rewrite Ht2, callbacks_app, selected_callbacks by done.
      rewrite Ht, callbacks_app, selected_callbacks by done.
      simpl. rewrite Hs. simpl. by rewrite <- app_assoc.
  - unfold handle_selection, bind, get_self, log in *. simplify_eq/=.
    eexists sel, _. split_and!; [|done|].
    + rewrite !callbacks_app, (callbacks_resolution _ Hev).
      by rewrite app_nil_r.
    + simpl. rewrite !callbacks_app, (callbacks_resolution _ Hev).
      rewrite !app_nil_r. by rewrite <- app_assoc.
Qed.

End ListenerClaims.

(** ** Strings *)





Section Strategies.

Context `{P : Android}.

(** *** The local-storage strategy *)



(** *** The query parser in aggregate mode *)

Lemma collect_row_from (row : list (option string)) (i n : nat) acc :
  fold_left (λ acc idx, acc ++ [getString row idx]) (seq i n) acc =
  acc ++ map (getString row) (seq i n).
Proof.
  revert i acc. induction n as [|n IH]; intros i acc; simpl.
  - by rewrite app_nil_r.
  - rewrite IH. by rewrite <- app_assoc.
Qed.

Lemma getString_all (row : list (option string)) :
  map (getString row) (seq 0 (length row)) = row.
Proof.
  apply list_eq. intros i. rewrite list_lookup_fmap.
  destruct (decide (i < length row)%nat) as [Hi|Hi].
  - rewrite lookup_seq_lt by done. simpl. unfold getString.
    destruct (lookup_lt_is_Some_2 row i Hi) as [cell Hc]. by rewrite Hc.
  - rewrite lookup_seq_ge by lia. simpl. symmetry. apply lookup_ge_None. lia.
Qed.

Lemma collect_row_wf (n : nat) acc (row : list (option string)) :
  length row = n → collect_row n acc row = acc ++ row.
Proof.
  intros <-. unfold collect_row. by rewrite collect_row_from, getString_all.
Qed.

Lemma collect_all_wf (c : Cursor) : well_formed c → collect_all c = concat (rows c).
Proof.
  unfold well_formed, collect_all. generalize (getColumnCount c). intros n.
  rewrite <- (app_nil_l (concat (rows c))). generalize (@nil (option string)).
  induction (rows c) as [|row rs IH]; intros acc Hwf; simpl.
  - by rewrite app_nil_r.
  - apply Forall_cons in Hwf as [Hrow Hwf].
    rewrite collect_row_wf, IH by done. by rewrite <- app_assoc.
Qed.

Lemma concat_cells (cells : list (list string)) :
  concat (map (map Some) cells) = map Some (concat cells).
Proof.
  induction cells as [|r cells IH]; simpl; [done|]. by rewrite IH, map_app.
Qed.

Lemma join_cells_strings (strs : list string) st :
  join_cells (map Some strs) st = (Ok (Some (Py.str_join "/" strs)), st).
Proof.
  unfold join_cells. change (map Some strs) with (Some <$> strs).
  by rewrite (mapM_fmap_Some id Some strs).
Qed.

Lemma join_cells_not_none cells st : (join_cells cells st).1 ≠ Ok None.
Proof. unfold join_cells. by destruct (mapM id cells). Qed.

(** In aggregate mode the result is never [None]. *)
Lemma parse_content_all_not_none uri projection sel args sort st :
  (_parse_content uri projection sel args sort true st).1 ≠ Ok None.
Proof.
  unfold _parse_content, grant, resolver_query, bind, log, lift, attr. simpl.
  destruct (grantUriPermission uri); simpl; [|done].
  destruct (query uri projection sel args sort) as [[c|]|]; simpl; try done.
  apply join_cells_not_none.
Qed.

(** Claim C8, as the code has it.  In aggregate mode, when the grant and the
    query succeed and no cell is null, the parser returns the values of all
    cells, row after row and column after column, joined with [/]; the result
    is never [None]: for a result set without rows it is the empty
    string. *)
Theorem aggregate_all_joins_cells uri projection sel args sort c cells st :
  grantUriPermission uri = Ok tt →
  query uri projection sel args sort = Ok (Some c) →
  well_formed c →
  rows c = map (map Some) cells →
  (_parse_content uri projection sel args sort true st).1 =
    Ok (Some (Py.str_join "/" (concat cells))) ∧
  (_parse_content uri projection sel args sort true st).1 ≠ Ok None ∧
  (cells = [] → (_parse_content uri projection sel args sort true st).1 = Ok (Some "")).
Proof.
  intros Hg Hq Hwf Hrows.
  assert ((_parse_content uri projection sel args sort true st).1 =
          Ok (Some (Py.str_join "/" (concat cells)))) as Heq.
  { unfold _parse_content, grant, resolver_query, bind, log, lift, attr. simpl.
    rewrite Hg, Hq. simpl.
    rewrite collect_all_wf, Hrows, concat_cells by done.
    by rewrite join_cells_strings. }
  split_and!; [done| |].
  - by rewrite Heq.
  - intros ->. by rewrite Heq.
Qed.

(** *** [__init__] *)

Lemma randint_range (a b draw : Z) : a ≤ b → a ≤ randint a b draw ≤ b.
Proof.
  intros Hab. unfold randint.
  pose proof (Z.mod_pos_bound draw (b - a + 1)). lia.
Qed.

Lemma randint_any (a b t : Z) : a ≤ t ≤ b → randint a b (t - a) = t.
Proof. intros Ht. unfold randint. rewrite Z.mod_small; lia. Qed.

(** Claim C5, as the code has it.  [__init__] draws both codes in
    123456..654321 and looks at no other chooser: whatever token of that
    range a live operation holds, some draw gives the new chooser the same
    token. *)
Theorem init_token_ignores_live_tokens draw1 draw2 st live :
  123456 ≤ live ≤ 654321 →
  123456 ≤ select_code (self (__init__ draw1 draw2 st).2) ≤ 654321 ∧
  123456 ≤ save_code (self (__init__ draw1 draw2 st).2) ≤ 654321 ∧
  ∃ draw, select_code (self (__init__ draw draw2 st).2) = live.
Proof.
  intros Hlive. simpl. split; [|split].
  - by apply randint_range.
  - by apply randint_range.
  - exists (live - 123456). by apply randint_any.
Qed.

End Strategies.

(** ** Outcomes, whatever the state *)

Section Outcomes.

Context `{P : Android}.

Lemma outcome_state {A} (m : M A) st : is_writer m → (m st).1 = outcome m.
Proof. intros H. by rewrite (is_writer_spec _ H st). Qed.

Lemma trace_state {A} (m : M A) st :
  is_writer m → trace (m st).2 = trace st ++ events m.
Proof. intros H. by rewrite (is_writer_spec _ H st). Qed.

Lemma outcome_bind {A B} (m : M A) (k : A → M B) :
  is_writer m → (∀ a, is_writer (k a)) →
  outcome (bind m k) =
    match outcome m with Ok a => outcome (k a) | Raise e => Raise e end.
Proof.
  intros Hm Hk. unfold outcome at 1, bind.
  rewrite (is_writer_spec _ Hm initial).
  destruct (outcome m) as [a|e]; [|done]. by apply outcome_state.
Qed.

Lemma outcome_try {A} (m : M A) caught h :
  is_writer m → (∀ e, is_writer (h e)) →
  outcome (try_except m caught h) =
    match outcome m with
    | Ok a => Ok a
    | Raise e => if caught e then outcome (h e) else Raise e
    end.
Proof.
  intros Hm Hh. unfold outcome at 1, try_except.
  rewrite (is_writer_spec _ Hm initial).
  destruct (outcome m) as [a|e]; [done|].
  destruct (caught e); [|done]. by apply outcome_state.
Qed.

Lemma outcome_ret {A} (a : A) : outcome (ret a) = Ok a.
Proof. done. Qed.

(** *** The items of a multiple selection *)


Lemma resolve_items_raises pre bad post rs e acc :
  Forall2 (λ item r, outcome (_resolve_uri item) = Ok r) pre rs →
  outcome (_resolve_uri bad) = Raise e →
  outcome (resolve_items (pre ++ bad :: post) acc) = Raise e.
Proof.
  intros H Hbad. revert acc.
  induction H as [|item r items rs Hr _ IH]; intros acc; simpl.
  - rewrite outcome_bind, Hbad; [done | apply resolve_uri_is_writer |].
    intros ele. apply resolve_items_is_writer.
  - rewrite outcome_bind, Hr, IH; [done | apply resolve_uri_is_writer |].
    intros ele. apply resolve_items_is_writer.
Qed.

Lemma resolve_selection_outcome data :
  outcome (resolve_selection data) =
    match getClipData data with
    | Some clip =>
        match outcome (resolve_items clip []) with
        | Ok sel => Ok sel
        | Raise _ =>
            match outcome (_resolve_uri (getData data)) with
            | Ok ele => Ok [to_slot ele]
            | Raise e => Raise e
            end
        end
    | None =>
        match outcome (_resolve_uri (getData data)) with
        | Ok ele => Ok [to_slot ele]
        | Raise e => Raise e
        end
    end.
Proof.
  unfold resolve_selection. rewrite outcome_try.
  - rewrite outcome_bind;
      [| apply is_writer_attr | intros; apply resolve_items_is_writer].
    assert (outcome (let* ele := _resolve_uri (getData data) in
                                ret [to_slot ele]) =
              match outcome (_resolve_uri (getData data)) with
              | Ok ele => Ok [to_slot ele]
              | Raise e => Raise e
              end) as Hfb.
    { rewrite outcome_bind;
        [done | apply resolve_uri_is_writer | intros; apply is_writer_ret]. }
    destruct (getClipData data) as [clip|]; simpl.
    + change (outcome (ret clip)) with (Ok (A:=list (option Uri)) clip). simpl.
      destruct (outcome (resolve_items clip [])); [done|]. by apply Hfb.
    + change (outcome (raise AttributeError))
        with (Raise (A:=list (option Uri)) AttributeError). simpl. by apply Hfb.
  - apply is_writer_bind; [apply is_writer_attr|]. intros.
    apply resolve_items_is_writer.
  - intros e. apply is_writer_bind; [apply resolve_uri_is_writer|].
    intros. apply is_writer_ret.
Qed.


(** Property X21.
    An item that raises makes the listener drop the list built so far and
    resolve the data URI alone. *)
Lemma multiple_selection_abandoned data pre bad post rs e st :
  getClipData data = Some (pre ++ bad :: post) →
  Forall2 (λ item r, outcome (_resolve_uri item) = Ok r) pre rs →
  outcome (_resolve_uri bad) = Raise e →
  (resolve_selection data st).1 =
    match outcome (_resolve_uri (getData data)) with
    | Ok ele => Ok [to_slot ele]
    | Raise e' => Raise e'
    end.
Proof.
  intros Hclip H Hbad.
  rewrite outcome_state by apply resolve_selection_is_writer.
  rewrite resolve_selection_outcome, Hclip.
  by rewrite (resolve_items_raises _ _ _ _ _ _ H Hbad).
Qed.

End Outcomes.

(** ** The downloads strategy *)

Section Downloads.

Context `{P : Android}.

Lemma truthy_false (p : option string) :
  Py.truthy p = false ↔ p = None ∨ p = Some "".
Proof.
  destruct p as [[|c s]|]; simpl; split; try done; auto.
  by intros [|].
Qed.

Lemma try_candidates_outcome attempt uris path :
  (∀ u, is_writer (attempt u)) →
  Py.truthy path = false →
  outcome (try_candidates attempt uris path) =
    first_nonempty (map (λ u, outcome (attempt u)) uris) path.
Proof.
  intros Ha. revert path. induction uris as [|u uris IH]; intros path Hp; [done|].
  simpl. rewrite outcome_bind.
  - rewrite outcome_try; [|apply Ha|].
    + destruct (outcome (attempt u)) as [p|[]]; simpl; try done.
      * destruct (Py.truthy p) eqn:Ht; [done|]. by apply IH.
      * rewrite Hp. by apply IH.
    + intros e. apply is_writer_bind; [by apply is_writer_log|].
      intros. apply is_writer_ret.
  - apply is_writer_try; [apply Ha|]. intros e.
    apply is_writer_bind; [by apply is_writer_log|]. intros. apply is_writer_ret.
  - intros p. destruct (Py.truthy p); [apply is_writer_ret|].
    by apply try_candidates_is_writer.
Qed.

Lemma first_nonempty_app l1 l2 path :
  Py.truthy path = false →
  first_nonempty (l1 ++ l2) path =
    match first_nonempty l1 path with
    | Ok p => if Py.truthy p then Ok p else first_nonempty l2 p
    | Raise e => Raise e
    end.
Proof.
  revert path. induction l1 as [|[p|e] l1 IH]; intros path Hp; simpl.
  - by rewrite Hp.
  - destruct (Py.truthy p) eqn:Ht; [by rewrite Ht|]. by apply IH.
  - destruct e; try done. by apply IH.
Qed.

Lemma first_nonempty_wins pre p post path :
  Forall empty_attempt pre → p ≠ "" →
  first_nonempty (pre ++ Ok (Some p) :: post) path = Ok (Some p).
Proof.
  intros Hpre Hp. revert path.
  induction Hpre as [|a pre [->|[->| ->]] _ IH]; intros path; simpl; try done.
  by destruct p.
Qed.

Lemma first_nonempty_exhausted attempts path :
  Forall empty_attempt attempts → Py.truthy path = false →
  first_nonempty attempts path = Ok None ∨
  first_nonempty attempts path = Ok (Some "").
Proof.
  intros H. revert path.
  induction H as [|a l [->|[->| ->]] _ IH]; intros path Hp; simpl; try by apply IH.
  by apply truthy_false in Hp as [->| ->]; [left|right].
Qed.

Lemma query_is_writer (q : Uri → M (option string)) :
  q = query_data ∨ q = query_all → ∀ u, is_writer (q u).
Proof. intros [->| ->] u; apply parse_content_is_writer. Qed.

Lemma downloads_known_locations_outcome uri :
  outcome (downloads_known_locations uri) =
    match getDocumentId uri with
    | Some file_id =>
        match Long_valueOf file_id with
        | Some row => first_nonempty (download_attempts row) None
        | None => Raise JavaException
        end
    | None => Raise JavaException
    end.
Proof.
  assert (∀ u, is_writer (query_data u)) as Hd by (apply query_is_writer; auto).
  assert (∀ u, is_writer (query_all u)) as Ha by (apply query_is_writer; auto).
  unfold downloads_known_locations.
  rewrite outcome_bind; [|unfold document_id; repeat writer_step|].
  2:{ intros file_id.
      apply is_writer_bind; [unfold long_value; repeat writer_step|]. intros row.
      apply is_writer_bind; [by apply try_candidates_is_writer|].
      intros p. destruct (negb (Py.truthy p)); [|apply is_writer_ret].
      by apply try_candidates_is_writer. }
  unfold document_id. destruct (getDocumentId uri) as [file_id|]; [|done].
  rewrite outcome_ret.
  rewrite outcome_bind; [|unfold long_value; repeat writer_step|].
  2:{ intros row.
      apply is_writer_bind; [by apply try_candidates_is_writer|].
      intros p. destruct (negb (Py.truthy p)); [|apply is_writer_ret].
      by apply try_candidates_is_writer. }
  unfold long_value. destruct (Long_valueOf file_id) as [row|]; [|done].
  rewrite outcome_ret.
  rewrite outcome_bind; [|by apply try_candidates_is_writer|].
  2:{ intros p. destruct (negb (Py.truthy p)); [|apply is_writer_ret].
      by apply try_candidates_is_writer. }
  rewrite try_candidates_outcome by done.
  unfold download_attempts. rewrite first_nonempty_app by done.
  destruct (first_nonempty _ None) as [p|e']; [|done].
  destruct (Py.truthy p) eqn:Hp; [done|].
  cbn [negb]. by rewrite try_candidates_outcome.
Qed.

Lemma downloads_documents_outcome uri :
  outcome (_handle_downloads_documents uri) =
    match outcome (query_display_name uri) with
    | Ok (Some name) =>
        Ok (Some (Py.join getExternalStoragePublicDirectory_DOWNLOADS name))
    | _ => outcome (downloads_known_locations uri)
    end.
Proof.
  assert (∀ e, outcome (log (EPrintExc e);; downloads_known_locations uri) =
               outcome (downloads_known_locations uri)) as Hrest.
  { intros e. rewrite outcome_bind; [done|by apply is_writer_log|].
    intros. apply downloads_known_locations_is_writer. }
  unfold _handle_downloads_documents.
  rewrite outcome_try; [|apply downloads_display_name_is_writer|].
  2:{ intros e. apply is_writer_bind; [by apply is_writer_log|]. intros.
      apply downloads_known_locations_is_writer. }
  unfold downloads_display_name.
  rewrite outcome_bind; [|apply parse_content_is_writer|].
  2:{ intros p. unfold join_opt. repeat writer_step. }
  destruct (outcome (query_display_name uri)) as [[name|]|e]; simpl.
  - done.
  - change (outcome (let* joined := join_opt _ None in ret (Some joined)))
      with (Raise (A:=option string) TypeError). simpl. apply Hrest.
  - apply Hrest.
Qed.

(** Claim C6, as the code has it.  For a download document with a numeric
    id: when the display-name query gives a name, the result is that name
    under the public downloads directory; otherwise the result is that of
    the ordered attempts on the three locations, first for [_data], then in
    aggregate mode, a provider error passing to the next attempt: the first
    non-empty value wins over the empty attempts before it, and when every
    attempt is empty the result is [None] or the empty string. *)
Theorem downloads_resolution_stages uri file_id row st :
  getDocumentId uri = Some file_id →
  Long_valueOf file_id = Some row →
  (∀ name, outcome (query_display_name uri) = Ok (Some name) →
     (_handle_downloads_documents uri st).1 =
       Ok (Some (Py.join getExternalStoragePublicDirectory_DOWNLOADS name))) ∧
  ((∀ name, outcome (query_display_name uri) ≠ Ok (Some name)) →
     (_handle_downloads_documents uri st).1 =
       first_nonempty (download_attempts row) None ∧
     (∀ pre p post,
        download_attempts row = pre ++ Ok (Some p) :: post →
        Forall empty_attempt pre → p ≠ "" →
        (_handle_downloads_documents uri st).1 = Ok (Some p)) ∧
     (Forall empty_attempt (download_attempts row) →
        (_handle_downloads_documents uri st).1 = Ok None ∨
        (_handle_downloads_documents uri st).1 = Ok (Some ""))).
Proof.
  intros Hid Hrow.
  rewrite outcome_state by apply downloads_documents_is_writer.
  rewrite downloads_documents_outcome, downloads_known_locations_outcome, Hid, Hrow.
  split.
  - intros name ->. done.
  - intros Hno.
    assert (match outcome (query_display_name uri) with
            | Ok (Some name) =>
                Ok (Some (Py.join getExternalStoragePublicDirectory_DOWNLOADS name))
            | _ => first_nonempty (download_attempts row) None
            end = first_nonempty (download_attempts row) None) as ->.
    { destruct (outcome (query_display_name uri)) as [[name|]|e]; try done.
      by destruct (Hno name). }
    split_and!; [done| |].
    + intros pre p post -> Hpre Hp. by apply first_nonempty_wins.
    + intros Hall. by apply first_nonempty_exhausted.
Qed.

End Downloads.

(** ** The generic content strategy *)

Section Generic.

Context `{P : Android}.

Lemma parse_content_events uri projection sel args sort index_all :
  grantUriPermission uri = Ok tt →
  events (_parse_content uri projection sel args sort index_all) =
    attempt_events uri projection sel args.
Proof.
  intros Hg.
  unfold events, _parse_content, grant, resolver_query, first_column, join_cells,
    attr, bind, log, lift, ret, raise.
  rewrite Hg. simpl.
  destruct index_all; simpl;
    destruct (query uri projection sel args sort) as [[c|]|]; simpl; try done.
  - by destruct (mapM id (collect_all c)).
  - destruct projection as [[|col ?]|]; simpl; try done.
    case_bool_decide; [|done]. by destruct (rows c).
Qed.

Lemma parse_content_writer uri projection sel args sort index_all :
  grantUriPermission uri = Ok tt →
  writer (_parse_content uri projection sel args sort index_all)
    (outcome (_parse_content uri projection sel args sort index_all))
    (attempt_events uri projection sel args).
Proof.
  intros Hg. rewrite <- (parse_content_events _ _ _ _ sort index_all Hg).
  apply is_writer_spec, parse_content_is_writer.
Qed.

Lemma parse_content_calls uri projection sel args sort index_all :
  writer (_parse_content uri projection sel args sort index_all)
    (outcome (_parse_content uri projection sel args sort index_all))
    (call_events uri projection sel args).
Proof.
  assert (events (_parse_content uri projection sel args sort index_all) =
          call_events uri projection sel args) as <-;
    [|apply is_writer_spec, parse_content_is_writer].
  unfold events, call_events, _parse_content, grant, resolver_query, first_column,
    join_cells, attr, bind, log, lift, ret, raise.
  destruct (grantUriPermission uri) as [[]|e]; simpl; [|done].
  destruct index_all; simpl;
    destruct (query uri projection sel args sort) as [[c|]|]; simpl; try done.
  - by destruct (mapM id (collect_all c)).
  - destruct projection as [[|col ?]|]; simpl; try done.
    case_bool_decide; [|done]. by destruct (rows c).
Qed.

Lemma call_events_granted uri projection sel args :
  grantUriPermission uri = Ok tt →
  call_events uri projection sel args = attempt_events uri projection sel args.
Proof. intros Hg. unfold call_events. by rewrite Hg. Qed.

Lemma parse_content_scheme_calls _uri uri sel file_name path :
  let first := outcome (_parse_content uri (Some ["_data"]) sel
                          (ArgScalar file_name) None false) in
  let retry := outcome (_parse_content uri (Some ["_data"]) sel
                          (ArgList [file_name]) None false) in
  events (parse_content_scheme _uri uri sel file_name path) =
    call_events uri (Some ["_data"]) sel (ArgScalar file_name) ++
    (match first with
     | Raise JavaException =>
         call_events uri (Some ["_data"]) sel (ArgList [file_name])
     | _ => []
     end) ++
    (if Py.truthy (path_before_finally first retry path) then []
     else call_events _uri (Some ["_display_name"]) None (ArgScalar None)).
Proof.
  intros first retry.
  pose proof (parse_content_calls uri (Some ["_data"]) sel (ArgScalar file_name)
                None false) as W1.
  pose proof (parse_content_calls uri (Some ["_data"]) sel (ArgList [file_name])
                None false) as W2.
  pose proof (parse_content_calls _uri (Some ["_display_name"]) None (ArgScalar None)
                None false) as W3.
  fold first in W1. fold retry in W2.
  assert (∀ p, ∃ r, writer
    (if negb (Py.truthy p)
     then _parse_content _uri (Some ["_display_name"]) None (ArgScalar None) None false
     else ret p) r
    (if Py.truthy p then []
     else call_events _uri (Some ["_display_name"]) None (ArgScalar None)))
    as Hfinal.
  { intros p. destruct (Py.truthy p); eexists; [apply writer_ret | apply W3]. }
  unfold parse_content_scheme, path_before_finally.
  destruct first as [p|e] eqn:Hfirst.
  - destruct (Hfinal p) as [r Hr].
    eapply writer_events, writer_finally_ok; [by apply writer_try_ok | apply Hr].
  - destruct (decide (e = JavaException)) as [->|Hne].
    + destruct retry as [p|e] eqn:Hretry.
      * destruct (Hfinal p) as [r Hr]. rewrite app_assoc.
        eapply writer_events, writer_finally_ok; [|apply Hr].
        by eapply writer_try_caught.
      * destruct (Hfinal path) as [r Hr]. rewrite app_assoc.
        eapply writer_events, writer_finally_raise; [|apply Hr].
        by eapply writer_try_caught.
    + destruct (Hfinal path) as [r Hr].
      assert (match e with
              | JavaException =>
                  call_events uri (Some ["_data"]) sel (ArgList [file_name])
              | _ => []
              end = []) as -> by (by destruct e).
      assert (match e with
              | JavaException => match retry with Ok p => p | Raise _ => path end
              | _ => path
              end = path) as -> by (by destruct e).
      eapply writer_events, writer_finally_raise; [|apply Hr].
      apply writer_try_uncaught; [done|]. by destruct e.
Qed.

Lemma resolve_uri_generic uri scheme st :
  getScheme uri = Some scheme →
  Py.lower scheme = "content" →
  getAuthority uri ≠ Some "com.android.externalstorage.documents" →
  getAuthority uri ≠ Some "com.android.providers.downloads.documents" →
  getAuthority uri ≠ Some "com.android.providers.media.documents" →
  _resolve_uri (Some uri) st = parse_content_scheme uri uri None None None st.
Proof.
  intros Hs Hl H1 H2 H3. unfold _resolve_uri.
  unfold bind at 1. simpl. unfold bind at 1. rewrite Hs. simpl.
  rewrite !bool_decide_false by done.
  unfold bind at 1. simpl. rewrite Hl. done.
Qed.



(** Claim C7, as the code has it.  For a [content] URI of an authority
    without a strategy, [_resolve_uri] calls [_parse_content] on the URI for
    [_data] with the filter argument as it is; when that call raises a
    [JavaException] it calls it again with the argument in a one-element
    list; and when [path] is still empty it makes one more call, for
    [_display_name], on the same URI.  Each call grants the permission on
    the URI and makes the query only when the grant did not raise: these
    are all the grants and queries of the resolution, in this order,
    whatever the grant and the provider do. *)
Theorem generic_content_attempts uri scheme st :
  getScheme uri = Some scheme →
  Py.lower scheme = "content" →
  getAuthority uri ≠ Some "com.android.externalstorage.documents" →
  getAuthority uri ≠ Some "com.android.providers.downloads.documents" →
  getAuthority uri ≠ Some "com.android.providers.media.documents" →
  let first := outcome (_parse_content uri (Some ["_data"]) None
                          (ArgScalar None) None false) in
  let retry := outcome (_parse_content uri (Some ["_data"]) None
                          (ArgList [None]) None false) in
  trace (_resolve_uri (Some uri) st).2 =
    trace st ++
    call_events uri (Some ["_data"]) None (ArgScalar None) ++
    (match first with
     | Raise JavaException => call_events uri (Some ["_data"]) None (ArgList [None])
     | _ => []
     end) ++
    (if Py.truthy (path_before_finally first retry None) then []
     else call_events uri (Some ["_display_name"]) None (ArgScalar None)).
Proof.
  intros Hs Hl H1 H2 H3 first retry.
  rewrite (resolve_uri_generic uri scheme st) by done.
  rewrite trace_state by apply parse_content_scheme_is_writer.
  by rewrite parse_content_scheme_calls.
Qed.

End Generic.

(** ** The scenarios *)

(** A run is the pair of its result and its final state. *)
Lemma run_result {A S} (x : result A * S) (r : result A) : x.1 = r → x = (r, x.2).
Proof. intros <-. by destruct x. Defined.

Module ScenarioFacts.

Import Device Scenario.

(** Claim C1 fails: a picked file is delivered twice with the select code;
    the code is still registered after the first delivery and the callback
    is invoked by both. *)
Lemma second_result_invokes_callback_again :
  let result := (200000, RESULT_OK, Some (picked_one device28 a_txt)) in
  let st1 := @deliver device28 [result] (start device28) in
  let st2 := @deliver device28 [result; result] (start device28) in
  select_code (self st1) = 200000 ∧
  callbacks (trace st1) = [(OnSelection 1, [SPath "/sdcard/a.txt"])] ∧
  callbacks (trace st2) =
    [(OnSelection 1, [SPath "/sdcard/a.txt"]);
     (OnSelection 1, [SPath "/sdcard/a.txt"])].
Proof. vm_compute. done. Qed.

(** The hypotheses of the theorem on the registration hold for one picked
    file on platform version 29. *)
Lemma dispatch_keeps_registration_witness :
  let data := picked_one device29 a_txt in
  let st := start device29 in
  let st1 := (@_on_activity_result device29 200000 RESULT_OK (Some data) st).2 in
  200000 = select_code (self st) ∧
  @_on_activity_result device29 200000 RESULT_OK (Some data) st = (Ok tt, st1) ∧
  ∃ sel st2,
    callbacks (trace st1) =
      callbacks (trace st) ++ [(_handle_selection (self st), sel)] ∧
    @_on_activity_result device29 200000 RESULT_OK (Some data) st1 = (Ok tt, st2) ∧
    callbacks (trace st2) =
      callbacks (trace st) ++
      [(_handle_selection (self st), sel); (_handle_selection (self st), sel)].
Proof.
  intros data st st1.
  assert (@_on_activity_result device29 200000 RESULT_OK (Some data) st = (Ok tt, st1))
    as Hrun.
  { refine (run_result (@_on_activity_result device29 200000 RESULT_OK (Some data) st)
              (Ok tt) _).
    vm_compute. reflexivity. }
  split; [reflexivity|]. split; [exact Hrun|].
  exact (proj2 (@dispatch_keeps_registration device29 200000 data st st1 eq_refl Hrun)).
Defined.

(** Claim C2 fails: on platform version 29 two files are picked; the
    selection has both paths, the callback receives a single one, the
    cache copy of the first. *)
Lemma scoped_storage_two_items_one_delivered :
  let data := picked_many device29 [a_txt; b_txt] (Some a_txt) in
  let st' := (@_on_activity_result device29 200000 RESULT_OK (Some data)
                (start device29)).2 in
  selection (self st') = Some [SPath "/sdcard/a.txt"; SPath "/sdcard/b.txt"] ∧
  callbacks (trace st') =
    [(OnSelection 1,
      [SPath "/storage/emulated/0/Android/data/org.test/cache/FromSharedStorage/a.txt"])].
Proof. vm_compute. done. Qed.

(** The hypotheses of the theorem on the cache copy hold for that result. *)
Lemma scoped_storage_callback_witness :
  let data := picked_many device29 [a_txt; b_txt] (Some a_txt) in
  let st := start device29 in
  let st' := (@_on_activity_result device29 200000 RESULT_OK (Some data) st).2 in
  @api_version device29 > 28 ∧
  200000 = select_code (self st) ∧
  @_on_activity_result device29 200000 RESULT_OK (Some data) st = (Ok tt, st') ∧
  ∃ p rest cache_dir bytes,
    outcome (@resolve_selection device29 data) = Ok (SPath p :: rest) ∧
    selection (self st') = Some (SPath p :: rest) ∧
    @getExternalCacheDir device29 = Some cache_dir ∧
    @openInputStream device29 (getData data) = Ok bytes ∧
    callbacks (trace st') =
      callbacks (trace st) ++
      [(_handle_selection (self st), [SPath (cache_file_of cache_dir p)])] ∧
    fs st' !! cache_file_of cache_dir p = Some (File bytes).
Proof.
  intros data st st'.
  assert (@_on_activity_result device29 200000 RESULT_OK (Some data) st = (Ok tt, st'))
    as Hrun.
  { refine (run_result (@_on_activity_result device29 200000 RESULT_OK (Some data) st)
              (Ok tt) _).
    vm_compute. reflexivity. }
  assert (@api_version device29 > 28) as Hapi by reflexivity.
  split; [exact Hapi|]. split; [reflexivity|]. split; [exact Hrun|].
  exact (@scoped_storage_callback_gets_cache_path_only device29 200000 data st st'
           Hapi eq_refl Hrun).
Defined.



(** A cancelled result satisfies the hypothesis of the theorem on dropped
    results. *)
Lemma dropped_result_witness :
  let st := start device28 in
  let data := Some (picked_one device28 a_txt) in
  (data = None ∨ 0 ≠ RESULT_OK ∨ 200000 ≠ select_code (self st)) ∧
  @_on_activity_result device28 200000 0 data st = (Ok tt, st).
Proof.
  intros st data.
  assert (data = None ∨ 0 ≠ RESULT_OK ∨ 200000 ≠ select_code (self st)) as H.
  { right. left. discriminate. }
  split; [exact H|].
  exact (@dropped_result_has_no_effect device28 200000 0 data st H).
Defined.

(** Claim C5 fails: two choosers get the same select code from different
    draws, and two open requests of one chooser start their activities with
    the same code. *)
Lemma two_choosers_share_a_token :
  select_code (self (@__init__ device28 0 1 initial).2) =
  select_code (self (@__init__ device28 530866 2 initial).2) ∧
  trace ((@_open_file device28
            {| on_selection := Some (OnSelection 2); filters := Some ["image"];
               multiple := Some true |}
            (@_open_file device28
               {| on_selection := Some (OnSelection 1); filters := None;
                  multiple := None |}
               (start device28)).2).2) =
    [@EStartActivity device28 "*/*" false 200000;
     @EStartActivity device28 "image/*" true 200000].
Proof. split; reflexivity. Qed.

(** The hypothesis of the theorem on the drawn codes holds for the token of
    the pending chooser. *)
Lemma init_token_witness :
  123456 ≤ 200000 ≤ 654321 ∧
  123456 ≤ select_code (self (@__init__ device28 7 8 (start device28)).2) ≤ 654321 ∧
  123456 ≤ save_code (self (@__init__ device28 7 8 (start device28)).2) ≤ 654321 ∧
  ∃ draw, select_code (self (@__init__ device28 draw 8 (start device28)).2) = 200000.
Proof.
  assert (123456 ≤ 200000 ≤ 654321) as H by lia.
  split; [exact H|].
  exact (@init_token_ignores_live_tokens device28 7 8 (start device28) 200000 H).
Defined.

(** Claim C6 fails: when every query has no row, all stages are used up and
    the result is the empty string, not [None]. *)
Lemma downloads_exhausted_gives_empty_string :
  (@_handle_downloads_documents quiet28 download_1034 (start quiet28)).1 =
    Ok (Some "").
Proof. vm_compute. reflexivity. Qed.

(** The example of the specification: the first location raises, the second
    is empty, the third holds the path. *)
Lemma downloads_third_location_wins :
  (@_handle_downloads_documents downloads_device download_1034
     (start downloads_device)).1 = Ok (Some "data/foo.txt").
Proof. vm_compute. reflexivity. Qed.

(** The hypotheses of the theorem on the downloads strategy hold in that
    example, and the theorem gives its result. *)
Lemma downloads_resolution_witness :
  @getDocumentId downloads_device download_1034 = Some "1034" ∧
  @Long_valueOf downloads_device "1034" = Some 1034 ∧
  (∀ name, outcome (@query_display_name downloads_device download_1034)
           ≠ Ok (Some name)) ∧
  @download_attempts downloads_device 1034 =
    [Raise JavaException; Ok None] ++ Ok (Some "data/foo.txt") ::
    [Raise JavaException; Ok (Some ""); Ok (Some "data/foo.txt")] ∧
  (@_handle_downloads_documents downloads_device download_1034
     (start downloads_device)).1 = Ok (Some "data/foo.txt").
Proof.
  assert (∀ name, outcome (@query_display_name downloads_device download_1034)
                  ≠ Ok (Some name)) as Hno.
  { intros name. vm_compute. discriminate. }
  assert (@download_attempts downloads_device 1034 =
            [Raise JavaException; Ok None] ++ Ok (Some "data/foo.txt") ::
            [Raise JavaException; Ok (Some ""); Ok (Some "data/foo.txt")]) as Hatt.
  { vm_compute. reflexivity. }
  split; [reflexivity|]. split; [reflexivity|]. split; [exact Hno|].
  split; [exact Hatt|].
  refine (proj1 (proj2 (proj2 (@downloads_resolution_stages downloads_device
            download_1034 "1034" 1034 (start downloads_device) eq_refl eq_refl) Hno))
            _ "data/foo.txt" _ Hatt _ _).
  - constructor; [right; right; reflexivity|].
    constructor; [left; reflexivity|]. constructor.
  - discriminate.
Defined.

(** The scenario of the specification for a media document: the image
    document 42 is picked; one query, on the image collection and filtered
    by the row, and one invocation of the callback, with one path. *)
Lemma image_document_one_query :
  trace (@_on_activity_result media_device 200000 RESULT_OK
           (Some (picked_one media_device image_42)) (start media_device)).2 =
    [@EGrant media_device (content_uri "media" "/external/images/media");
     @EQuery media_device (content_uri "media" "/external/images/media")
       (Some ["_data"]) (Some "_id=?") (ArgScalar (Some "42"));
     @ECallback media_device (OnSelection 1) [SPath "/sdcard/DCIM/42.jpg"]].
Proof. reflexivity. Qed.

(** The three queries on a provider that rejects the scalar argument. *)
Lemma strict_provider_three_attempts :
  trace (@_resolve_uri strict_device (Some foreign) (start strict_device)).2 =
    [@EGrant strict_device foreign;
     @EQuery strict_device foreign (Some ["_data"]) None (ArgScalar None);
     @EGrant strict_device foreign;
     @EQuery strict_device foreign (Some ["_data"]) None (ArgList [None]);
     @EGrant strict_device foreign;
     @EQuery strict_device foreign (Some ["_display_name"]) None (ArgScalar None)] ∧
  (@_resolve_uri strict_device (Some foreign) (start strict_device)).1 =
    Ok (Some "report.pdf").
Proof. split; reflexivity. Qed.

(** The hypotheses of the theorem on the generic strategy hold for that
    provider, and the theorem gives these events. *)
Lemma generic_content_attempts_witness :
  let st := start strict_device in
  let first := outcome (@_parse_content strict_device foreign (Some ["_data"]) None
                          (ArgScalar None) None false) in
  let retry := outcome (@_parse_content strict_device foreign (Some ["_data"]) None
                          (ArgList [None]) None false) in
  @getScheme strict_device foreign = Some "content" ∧
  Py.lower "content" = "content" ∧
  trace (@_resolve_uri strict_device (Some foreign) st).2 =
    trace st ++
    @call_events strict_device foreign (Some ["_data"]) None (ArgScalar None) ++
    (match first with
     | Raise JavaException =>
         @call_events strict_device foreign (Some ["_data"]) None (ArgList [None])
     | _ => []
     end) ++
    (if Py.truthy (path_before_finally first retry None) then []
     else @call_events strict_device foreign (Some ["_display_name"]) None
            (ArgScalar None)).
Proof.
  intros st first retry.
  split; [reflexivity|]. split; [reflexivity|].
  refine (@generic_content_attempts strict_device foreign "content" st
            eq_refl eq_refl _ _ _); discriminate.
Defined.

(** Claim C7 fails: where the permission grant is refused, the three calls
    of [_parse_content] are made and none of them reaches its query,
    although the providers would answer; resolution raises. *)
Lemma denied_grant_makes_no_query :
  trace (@_resolve_uri denied_device (Some foreign) (start denied_device)).2 =
    [@EGrant denied_device foreign;
     @EGrant denied_device foreign;
     @EGrant denied_device foreign] ∧
  (@_resolve_uri denied_device (Some foreign) (start denied_device)).1 =
    Raise JavaException ∧
  @query denied_device foreign (Some ["_data"]) None (ArgScalar None) None =
    Ok (Some {| columnNames := ["_data"]; rows := [] |}).
Proof. split_and!; reflexivity. Qed.

(** Claim C8 fails: for a result set without rows the aggregate mode returns
    the empty string, not [None]. *)
Lemma aggregate_of_empty_result_is_empty_string :
  (@_parse_content quiet28 foreign None None (ArgScalar None) None true
     (start quiet28)).1 = Ok (Some "").
Proof. vm_compute. reflexivity. Qed.

(** The hypotheses of the theorem on the aggregate mode hold for a table of
    two rows and two columns. *)
Lemma aggregate_all_witness :
  let cells := [["1"; "a.txt"]; ["2"; "b.txt"]] in
  @grantUriPermission table_device foreign = Ok tt ∧
  @query table_device foreign None None (ArgScalar None) None = Ok (Some table) ∧
  well_formed table ∧
  rows table = map (map Some) cells ∧
  (@_parse_content table_device foreign None None (ArgScalar None) None true
     (start table_device)).1 = Ok (Some "1/a.txt/2/b.txt").
Proof.
  intros cells.
  assert (well_formed table) as Hwf by (repeat constructor).
  split; [reflexivity|]. split; [reflexivity|]. split; [exact Hwf|].
  split; [reflexivity|].
  exact (proj1 (@aggregate_all_joins_cells table_device foreign None None
                  (ArgScalar None) None table cells (start table_device)
                  eq_refl eq_refl Hwf eq_refl)).
Defined.



(** The hypotheses of the theorem on a null first item hold for a URI that
    resolves to nothing on platform version 29. *)
Lemma null_first_item_witness :
  let data := picked_one quiet29 foreign in
  let st := start quiet29 in
  @api_version quiet29 > 28 ∧
  200000 = select_code (self st) ∧
  outcome (@resolve_selection quiet29 data) = Ok [SNone] ∧
  ∃ st',
    @_on_activity_result quiet29 200000 RESULT_OK (Some data) st =
      (Raise TypeError, st') ∧
    selection (self st') = Some [SNone] ∧
    callbacks (trace st') = callbacks (trace st).
Proof.
  intros data st.
  assert (@api_version quiet29 > 28) as Hapi by reflexivity.
  assert (outcome (@resolve_selection quiet29 data) = Ok [SNone]) as Hsel
    by (vm_compute; reflexivity).
  split; [exact Hapi|]. split; [reflexivity|]. split; [exact Hsel|].
  exact (@scoped_storage_null_first_item_raises quiet29 200000 data [] st
           Hapi eq_refl Hsel).
Defined.

End ScenarioFacts.

(** * Further properties of the code *)

(** ** More on the query parser *)

Section Parser.

Context `{P : Android}.

Lemma getColumnIndex_first (c : Cursor) (column : string) (i : nat) :
  columnNames c !! i = Some column →
  column ∉ take i (columnNames c) →
  getColumnIndex c column = Z.of_nat i.
Proof.
  intros Hi Hbefore. unfold getColumnIndex.
  assert (list_find (λ n, n = column) (columnNames c) = Some (i, column)) as ->; [|done].
  apply list_find_Some. split_and!; [done..|].
  intros j y Hj Hlt ->. apply Hbefore.
  apply list_elem_of_lookup. exists j. by rewrite lookup_take_lt.
Qed.

Lemma getColumnIndex_absent (c : Cursor) (column : string) :
  column ∉ columnNames c → getColumnIndex c column = -1.
Proof.
  intros Hno. unfold getColumnIndex.
  assert (list_find (λ n, n = column) (columnNames c) = None) as ->; [|done].
  apply list_find_None, Forall_forall. by intros x Hx ->.
Qed.

(** Property X1.
    In projection mode the parser reads the first row only, at the first
    column named as [projection[0]]; without such a column or without a
    row the result is [None]. *)
Theorem parse_content_reads_first_row uri column others sel args sort c st :
  grantUriPermission uri = Ok tt →
  query uri (Some (column :: others)) sel args sort = Ok (Some c) →
  let result := (_parse_content uri (Some (column :: others)) sel args sort false st).1 in
  (column ∉ columnNames c → result = Ok None) ∧
  (rows c = [] → result = Ok None) ∧
  (∀ i row rest,
     columnNames c !! i = Some column → column ∉ take i (columnNames c) →
     rows c = row :: rest →
     result = Ok (getString row i)).
Proof.
  intros Hg Hq result.
  assert (result =
          if bool_decide (getColumnIndex c column ≠ -1) then
            match rows c with
            | row :: _ => Ok (getString row (Z.to_nat (getColumnIndex c column)))
            | [] => Ok None
            end
          else Ok None) as Hres.
  { unfold result, _parse_content, grant, resolver_query, first_column, attr,
      bind, log, lift, ret. simpl. rewrite Hg, Hq. simpl.
    case_bool_decide; [|done]. by destruct (rows c). }
  split_and!.
  - intros Hno. rewrite Hres, getColumnIndex_absent by done.
    by rewrite bool_decide_false by (by intros []).
  - intros Hrows. rewrite Hres, Hrows. by case_bool_decide.
  - intros i row rest Hi Hbefore Hrows.
    rewrite Hres, Hrows, (getColumnIndex_first c column i) by done.
    rewrite bool_decide_true by lia. by rewrite Nat2Z.id.
Qed.

(** Property X2.
    A null cursor is an [AttributeError] in both modes, raised after the
    grant and the query were made. *)
Theorem parse_content_null_cursor uri projection sel args sort index_all st :
  grantUriPermission uri = Ok tt →
  query uri projection sel args sort = Ok None →
  _parse_content uri projection sel args sort index_all st =
    (Raise AttributeError, emit (attempt_events uri projection sel args) st).
Proof.
  intros Hg Hq.
  unfold _parse_content, grant, resolver_query, attr, bind, log, lift, raise, emit.
  simpl. rewrite Hg. simpl. destruct index_all; simpl; rewrite Hq; simpl;
    by rewrite <- app_assoc.
Qed.

Lemma mapM_id_None (cells : list (option string)) :
  None ∈ cells → mapM id cells = None.
Proof.
  intros Hin. destruct (mapM id cells) as [strs|] eqn:Hm; [|done].
  apply mapM_Some in Hm. apply list_elem_of_lookup in Hin as [i Hi].
  destruct (Forall2_lookup_l _ _ _ _ _ Hm Hi) as (y & _ & Hy). done.
Qed.

(** Property X3.
    In aggregate mode a NULL cell anywhere in the result set makes the join
    raise a [TypeError]. *)
Theorem aggregate_all_null_cell uri projection sel args sort c row st :
  grantUriPermission uri = Ok tt →
  query uri projection sel args sort = Ok (Some c) →
  well_formed c →
  row ∈ rows c → None ∈ row →
  (_parse_content uri projection sel args sort true st).1 = Raise TypeError.
Proof.
  intros Hg Hq Hwf Hrow Hnull.
  unfold _parse_content, grant, resolver_query, attr, bind, log, lift. simpl.
  rewrite Hg, Hq. simpl. rewrite collect_all_wf by done.
  unfold join_cells. rewrite mapM_id_None; [done|].
  apply list_elem_of_In, in_concat. exists row. by rewrite <- !list_elem_of_In.
Qed.

End Parser.

(** ** More on the strategies *)

Lemma split_length (sep : ascii) (s : string) :
  length (Py.split sep s) = S (count_char sep s).
Proof.
  induction s as [|c s IH]; simpl; [done|].
  destruct (Ascii.eqb c sep); simpl; [by rewrite IH|].
  destruct (Py.split sep s) as [|h t]; simpl in *; [done|]. done.
Qed.

Section MoreStrategies.

Context `{P : Android}.

(** Property X4.
    The local-storage strategy never touches the state; it raises a
    [JavaException] when the URI has no document id, a [ValueError] when
    the id does not hold exactly one colon, and returns a path otherwise. *)
Theorem external_documents_errors uri st :
  (_handle_external_documents uri st).2 = st ∧
  match getDocumentId uri with
  | None => (_handle_external_documents uri st).1 = Raise JavaException
  | Some file_id =>
      if decide (count_char ":" file_id = 1%nat)
      then ∃ p, (_handle_external_documents uri st).1 = Ok p
      else (_handle_external_documents uri st).1 = Raise ValueError
  end.
Proof.
  unfold _handle_external_documents, document_id, unpack_pair, bind, ret, raise.
  destruct (getDocumentId uri) as [file_id|]; simpl; [|done].
  pose proof (split_length ":" file_id) as Hlen.
  destruct (Py.split ":" file_id) as [|a [|b [|c rest]]]; simpl in *.
  - done.
  - split; [done|]. case_decide; [lia|done].
  - split; [done|]. case_decide; [eauto|lia].
  - split; [done|]. case_decide; [lia|done].
Qed.

(** Property X5.
    Resolution touches neither the object nor the files and invokes no
    callback: all it adds to the trace are grants, queries and printed
    tracebacks. *)
Theorem resolve_uri_only_queries uri st :
  self (_resolve_uri uri st).2 = self st ∧
  fs (_resolve_uri uri st).2 = fs st ∧
  callbacks (trace (_resolve_uri uri st).2) = callbacks (trace st) ∧
  ∃ evs, trace (_resolve_uri uri st).2 = trace st ++ evs ∧
         Forall resolution_event evs.
Proof.
  destruct (resolve_uri_is_writer uri) as (r & evs & Hw & Hev).
  rewrite (Hw st). simpl. split_and!; [done..| |by eauto].
  rewrite callbacks_app, (callbacks_resolution _ Hev). by rewrite app_nil_r.
Qed.

Lemma resolve_uri_generic_authority uri scheme st :
  getScheme uri = Some scheme →
  getAuthority uri ≠ Some "com.android.externalstorage.documents" →
  getAuthority uri ≠ Some "com.android.providers.downloads.documents" →
  getAuthority uri ≠ Some "com.android.providers.media.documents" →
  _resolve_uri (Some uri) st =
    if bool_decide (Py.lower scheme = "content")
    then parse_content_scheme uri uri None None None st
    else if bool_decide (Py.lower scheme = "file") then (Ok (getPath uri), st)
    else (Ok None, st).
Proof.
  intros Hs H1 H2 H3. unfold _resolve_uri.
  unfold bind at 1. simpl. unfold bind at 1. rewrite Hs. simpl.
  rewrite !bool_decide_false by done.
  unfold bind at 1. simpl. rewrite andb_true_r.
  repeat case_bool_decide; done.
Qed.

(** Property X6.
    A URI of an authority without a strategy whose scheme is not
    [content] is resolved without any query: to its path for the scheme
    [file], in any letter case, and to [None] for any other scheme. *)
Theorem resolve_uri_other_schemes uri scheme st :
  getScheme uri = Some scheme →
  Py.lower scheme ≠ "content" →
  getAuthority uri ≠ Some "com.android.externalstorage.documents" →
  getAuthority uri ≠ Some "com.android.providers.downloads.documents" →
  getAuthority uri ≠ Some "com.android.providers.media.documents" →
  _resolve_uri (Some uri) st =
    (Ok (if bool_decide (Py.lower scheme = "file") then getPath uri else None), st).
Proof.
  intros Hs Hc H1 H2 H3. rewrite (resolve_uri_generic_authority uri scheme) by done.
  rewrite bool_decide_false by done. by case_bool_decide.
Qed.

(** Property X7.
    Without a URI, or with a URI that has no scheme, resolution raises an
    [AttributeError] before anything else, whatever the authority. *)
Theorem resolve_uri_without_scheme uri st :
  uri = None ∨ (∃ u, uri = Some u ∧ getScheme u = None) →
  _resolve_uri uri st = (Raise AttributeError, st).
Proof.
  intros [->|(u & -> & Hs)]; [done|].
  unfold _resolve_uri. unfold bind at 1. simpl. unfold bind at 1. by rewrite Hs.
Qed.

End MoreStrategies.

Section MoreDownloads.

Context `{P : Android}.

Lemma resolve_uri_downloads uri scheme st :
  getScheme uri = Some scheme →
  Py.lower scheme = "content" →
  getAuthority uri = Some "com.android.providers.downloads.documents" →
  _resolve_uri (Some uri) st =
    match outcome (_handle_downloads_documents uri) with
    | Ok d =>
        let st1 := emit (events (_handle_downloads_documents uri)) st in
        if Py.truthy d then (Ok d, st1)
        else parse_content_scheme uri uri None None d st1
    | Raise e => (Raise e, emit (events (_handle_downloads_documents uri)) st)
    end.
Proof.
  intros Hs Hl Ha. unfold _resolve_uri.
  unfold bind at 1. simpl. unfold bind at 1. rewrite Hs. simpl.
  rewrite Ha. rewrite bool_decide_false by discriminate.
  rewrite bool_decide_true by reflexivity.
  unfold bind at 1. unfold bind at 1.
  rewrite (is_writer_spec _ (downloads_documents_is_writer uri) st).
  destruct (outcome (_handle_downloads_documents uri)) as [d|e]; [|done].
  unfold ret. cbv beta iota. simpl l_downloads. rewrite Hl.
  rewrite (bool_decide_true ("content" = "content")) by reflexivity.
  rewrite (bool_decide_false ("content" = "file")) by discriminate.
  destruct (Py.truthy d) eqn:Hd; simpl; by rewrite Hd.
Qed.

(** Property X9.
    For a download document with the [content] scheme, a non-empty result
    of the downloads strategy is the result of the resolution, with no
    further query; an empty one hands over to the queries of the generic
    strategy on the same URI. *)
Theorem resolve_uri_downloads_result uri scheme d st :
  getScheme uri = Some scheme →
  Py.lower scheme = "content" →
  getAuthority uri = Some "com.android.providers.downloads.documents" →
  outcome (_handle_downloads_documents uri) = Ok d →
  _resolve_uri (Some uri) st =
    if Py.truthy d then (Ok d, (_handle_downloads_documents uri st).2)
    else parse_content_scheme uri uri None None d
           (_handle_downloads_documents uri st).2.
Proof.
  intros Hs Hl Ha Hd. rewrite (resolve_uri_downloads uri scheme) by done.
  rewrite (is_writer_spec _ (downloads_documents_is_writer uri) st), Hd. done.
Qed.

(** Property X10.
    When the display name cannot be had and the document id is not a
    number, the strategy raises the [JavaException] of [Long.valueOf]
    without having queried any of the known locations. *)
Theorem downloads_id_not_a_number uri file_id e st :
  outcome (downloads_display_name uri) = Raise e →
  getDocumentId uri = Some file_id →
  Long_valueOf file_id = None →
  _handle_downloads_documents uri st =
    (Raise JavaException,
     emit (events (downloads_display_name uri) ++ [EPrintExc e]) st).
Proof.
  intros He Hid Hlong.
  pose proof (is_writer_spec _ (downloads_display_name_is_writer uri)) as W.
  rewrite He in W.
  eapply writer_try_caught; [exact W | done |].
  intros st'. unfold downloads_known_locations, document_id, long_value, bind, log.
  simpl. rewrite Hid. simpl. by rewrite Hlong.
Qed.

(** Property X11.
    The loops over the known locations catch provider errors only: another
    exception of an attempt, after attempts that gave nothing, is the
    outcome of the strategy. *)
Theorem downloads_other_exception uri file_id row pre e post st :
  (∀ name, outcome (query_display_name uri) ≠ Ok (Some name)) →
  getDocumentId uri = Some file_id →
  Long_valueOf file_id = Some row →
  download_attempts row = pre ++ Raise e :: post →
  Forall empty_attempt pre →
  e ≠ JavaException →
  (_handle_downloads_documents uri st).1 = Raise e.
Proof.
  intros Hno Hid Hrow Hatt Hpre He.
  rewrite outcome_state by apply downloads_documents_is_writer.
  rewrite downloads_documents_outcome, downloads_known_locations_outcome, Hid, Hrow.
  assert (first_nonempty (download_attempts row) None = Raise e) as Hf.
  { rewrite Hatt. clear Hatt. generalize (@None string).
    induction Hpre as [|a pre [->|[->| ->]] _ IH]; intros path; simpl; try done.
    by destruct e. }
  destruct (outcome (query_display_name uri)) as [[name|]|e']; try done.
  by destruct (Hno name).
Qed.

End MoreDownloads.

Section MoreGeneric.

Context `{P : Android}.

Lemma parse_content_scheme_outcome _uri uri sel file_name path :
  let first := outcome (_parse_content uri (Some ["_data"]) sel
                          (ArgScalar file_name) None false) in
  let retry := outcome (_parse_content uri (Some ["_data"]) sel
                          (ArgList [file_name]) None false) in
  let third := outcome (_parse_content _uri (Some ["_display_name"]) None
                          (ArgScalar None) None false) in
  let body := match first with
              | Raise JavaException => retry
              | _ => first
              end in
  outcome (parse_content_scheme _uri uri sel file_name path) =
    match body with
    | Ok p => if Py.truthy p then Ok p else third
    | Raise e =>
        if Py.truthy path then Raise e
        else match third with Ok _ => Raise e | Raise e' => Raise e' end
    end.
Proof.
  intros first retry third body.
  assert (outcome (try_except
            (_parse_content uri (Some ["_data"]) sel (ArgScalar file_name) None false)
            is_JavaException
            (λ _, _parse_content uri (Some ["_data"]) sel (ArgList [file_name])
                    None false)) = body) as Hbody.
  { rewrite outcome_try by (intros; apply parse_content_is_writer).
    subst body. fold first. fold retry. by destruct first as [p|[]]. }
  assert (is_writer (try_except
            (_parse_content uri (Some ["_data"]) sel (ArgScalar file_name) None false)
            is_JavaException
            (λ _, _parse_content uri (Some ["_data"]) sel (ArgList [file_name])
                    None false))) as Hw.
  { apply is_writer_try; intros; apply parse_content_is_writer. }
  unfold outcome at 1, parse_content_scheme, try_finally.
  rewrite (is_writer_spec _ Hw initial), Hbody.
  destruct body as [p|e].
  - destruct (Py.truthy p); simpl; [done|].
    apply outcome_state, parse_content_is_writer.
  - destruct (Py.truthy path); simpl; [done|].
    rewrite (is_writer_spec _ (parse_content_is_writer _ _ _ _ _ _)).
    fold third. by destruct third.
Qed.

(** Property X12.
    When both [_data] queries raise, the query for the display name is
    still made in the [finally] block, but what it returns is thrown
    away: resolution raises the exception of the second query, or the
    one of the display-name query when that raises too. *)
Theorem generic_content_both_queries_raise uri scheme e st :
  getScheme uri = Some scheme →
  Py.lower scheme = "content" →
  getAuthority uri ≠ Some "com.android.externalstorage.documents" →
  getAuthority uri ≠ Some "com.android.providers.downloads.documents" →
  getAuthority uri ≠ Some "com.android.providers.media.documents" →
  outcome (_parse_content uri (Some ["_data"]) None (ArgScalar None) None false)
    = Raise JavaException →
  outcome (_parse_content uri (Some ["_data"]) None (ArgList [None]) None false)
    = Raise e →
  (_resolve_uri (Some uri) st).1 =
    match outcome (query_display_name uri) with
    | Ok _ => Raise e
    | Raise e' => Raise e'
    end.
Proof.
  intros Hs Hl H1 H2 H3 Hfirst Hretry.
  rewrite (resolve_uri_generic uri scheme st) by done.
  rewrite outcome_state by apply parse_content_scheme_is_writer.
  rewrite parse_content_scheme_outcome. cbv zeta. by rewrite Hfirst, Hretry.
Qed.

(** Property X13.
    When the first [_data] query returns a non-empty path, that path is the
    result and the query is the only one. *)
Theorem generic_content_first_query_answers uri scheme p st :
  getScheme uri = Some scheme →
  Py.lower scheme = "content" →
  getAuthority uri ≠ Some "com.android.externalstorage.documents" →
  getAuthority uri ≠ Some "com.android.providers.downloads.documents" →
  getAuthority uri ≠ Some "com.android.providers.media.documents" →
  grantUriPermission uri = Ok tt →
  outcome (_parse_content uri (Some ["_data"]) None (ArgScalar None) None false)
    = Ok (Some p) →
  p ≠ "" →
  _resolve_uri (Some uri) st =
    (Ok (Some p),
     emit (attempt_events uri (Some ["_data"]) None (ArgScalar None)) st).
Proof.
  intros Hs Hl H1 H2 H3 Hg Hfirst Hp.
  rewrite (resolve_uri_generic uri scheme st) by done.
  pose proof (parse_content_writer uri (Some ["_data"]) None (ArgScalar None)
                None false Hg) as W1.
  rewrite Hfirst in W1.
  rewrite <- (app_nil_r (attempt_events _ _ _ _)).
  eapply writer_finally_ok; [by apply writer_try_ok|].
  apply nonempty_true in Hp. simpl. rewrite Hp. apply writer_ret.
Qed.

End MoreGeneric.

Section MoreListener.

Context `{P : Android}.

(** Property X15.
    A result without clip data gives a selection of one slot, the path the
    data URI resolves to or [None]; an exception of that resolution is
    the exception of the whole. *)
Theorem single_selection_slot data st :
  getClipData data = None →
  (resolve_selection data st).1 =
    match outcome (_resolve_uri (getData data)) with
    | Ok ele => Ok [to_slot ele]
    | Raise e => Raise e
    end.
Proof.
  intros Hclip. rewrite outcome_state by apply resolve_selection_is_writer.
  by rewrite resolve_selection_outcome, Hclip.
Qed.

(** Property X16.
    An empty clip is an empty selection: nothing is resolved, and the data
    URI is not looked at. *)
Theorem empty_clip_selection data st :
  getClipData data = Some [] → resolve_selection data st = (Ok [], st).
Proof. intros Hclip. unfold resolve_selection, try_except, bind. by rewrite Hclip. Qed.

(** Property X17.
    A matching result with neither clip data nor data URI makes the
    listener raise an [AttributeError] and leaves the whole state as it
    was. *)
Theorem result_without_uri request_code data st :
  request_code = select_code (self st) →
  getClipData data = None → getData data = None →
  _on_activity_result request_code RESULT_OK (Some data) st =
    (Raise AttributeError, st).
Proof.
  intros -> Hclip Hdata. unfold _on_activity_result.
  rewrite bool_decide_false by (by intros []).
  unfold bind at 1, get_self at 1. simpl. rewrite bool_decide_true by done.
  unfold bind at 1, resolve_selection, try_except, bind.
  by rewrite Hclip, Hdata.
Qed.

(** Property X18.
    Up to platform version 28 a matching result that is resolved is stored
    in [self.selection] and handed to the callback as it is, and the
    files are not touched. *)
Theorem delivery_below_scoped_storage request_code data sel st :
  ¬ api_version > 28 →
  request_code = select_code (self st) →
  outcome (resolve_selection data) = Ok sel →
  ∃ st',
    _on_activity_result request_code RESULT_OK (Some data) st = (Ok tt, st') ∧
    selection (self st') = Some sel ∧
    callbacks (trace st') = callbacks (trace st) ++ [(_handle_selection (self st), sel)] ∧
    fs st' = fs st.
Proof.
  intros Hapi Hrc Hsel. rewrite on_activity_result_matching by done.
  pose proof (is_writer_events _ (resolve_selection_is_writer data)) as Hev.
  rewrite Hsel. cbv zeta. rewrite bool_decide_false by done.
  unfold handle_selection, bind, get_self, log. simpl.
  eexists. split; [done|]. simpl. split_and!; [done| |done].
  rewrite !callbacks_app, (callbacks_resolution _ Hev). by rewrite app_nil_r.
Qed.

(** Property X19.
    Above platform version 28 a resolved selection whose first item is not
    a path stops the listener: an [IndexError] for the empty selection, a
    [TypeError] otherwise; the selection is stored, the callback is not
    invoked and the files are not touched. *)
Theorem scoped_storage_needs_first_path request_code data sel st :
  api_version > 28 →
  request_code = select_code (self st) →
  outcome (resolve_selection data) = Ok sel →
  (∀ p rest, sel ≠ SPath p :: rest) →
  ∃ st',
    _on_activity_result request_code RESULT_OK (Some data) st =
      (Raise (match sel with [] => IndexError | _ => TypeError end), st') ∧
    selection (self st') = Some sel ∧
    callbacks (trace st') = callbacks (trace st) ∧
    fs st' = fs st.
Proof.
  intros Hapi Hrc Hsel Hfirst. rewrite on_activity_result_matching by done.
  pose proof (is_writer_events _ (resolve_selection_is_writer data)) as Hev.
  rewrite Hsel. cbv zeta. rewrite bool_decide_true by done.
  unfold copy_to_cache, basename_first, bind, raise.
  destruct sel as [|[p| |] rest]; [|by destruct (Hfirst p rest)|..];
    (eexists; split; [done|]; split_and!; [done| |done];
     by apply selected_callbacks).
Qed.

Lemma cache_file_plain (cache_dir p : string) :
  Py.basename p ≠ "" → Py.endswith_sep (cache_file_of cache_dir p) = false.
Proof.
  intros Hname. rewrite cache_file_shape.
  rewrite !endswith_sep_append by done.
  by apply endswith_no_sep, basename_from_no_sep.
Qed.

(** Property X20.
    Above platform version 28, when the external cache directory is there,
    the first selected path has a base name that is a plain name, no
    directory stands at the path of the cache copy and the stream of the
    data URI cannot be opened, the listener raises the exception of the
    stream and invokes no callback; the [FromSharedStorage] directory has
    been made by then and a stale cache file of the same name is gone. *)
Theorem scoped_storage_stream_fails request_code data p rest cache_dir e st :
  api_version > 28 →
  request_code = select_code (self st) →
  outcome (resolve_selection data) = Ok (SPath p :: rest) →
  getExternalCacheDir = Some cache_dir →
  openInputStream (getData data) = Raise e →
  Py.basename p ≠ "" → Py.basename p ≠ "." → Py.basename p ≠ ".." →
  stat (fs st) cache_dir = Some Dir →
  stat (fs st) (cache_file_of cache_dir p) ≠ Some Dir →
  ∃ st',
    _on_activity_result request_code RESULT_OK (Some data) st = (Raise e, st') ∧
    callbacks (trace st') = callbacks (trace st) ∧
    is_Some (stat (fs st') (Py.join cache_dir "FromSharedStorage")) ∧
    stat (fs st') (cache_file_of cache_dir p) = None.
Proof.
  intros Hapi Hrc Hsel Hcd Hopen Hname _ _ Hdir Hcf.
  rewrite on_activity_result_matching by done.
  pose proof (is_writer_events _ (resolve_selection_is_writer data)) as Hev.
  rewrite Hsel. cbv zeta. rewrite bool_decide_true by done.
  rewrite (copy_to_cache_unfold p rest data cache_dir) by done.
  pose proof (cache_file_is_not_the_directory cache_dir p) as Hne.
  pose proof (cache_file_plain cache_dir p Hname) as Hcfs.
  destruct (cache_directory_shape cache_dir) as [Hloc0 Hlocs].
  assert (parent_is_dir (fs st) (Py.join cache_dir "FromSharedStorage") = true)
    as Hpar.
  { rewrite parent_is_dir_join by done. rewrite bool_decide_true by done.
    apply orb_true_r. }
  rewrite (stat_plain _ (cache_file_of cache_dir p)) in Hcf by done.
  revert Hne Hcfs Hloc0 Hlocs Hpar Hcf.
  generalize (Py.join cache_dir "FromSharedStorage"). intros loc.
  generalize (cache_file_of cache_dir p). intros cf Hne Hcfs Hloc0 Hlocs Hpar Hcf.
  cbv zeta. unfold path_exists, os_remove. unfold stat. rewrite Hlocs, Hcfs.
  unfold os_mkdir, open_input_stream, attr, get_fs, set_fs, log, lift, bind,
    ret, raise.
  rewrite (rstrip_sep_id loc) by done. apply nonempty_true in Hloc0.
  rewrite Hloc0, Hopen. simpl.
  destruct (fs st !! loc) as [nloc|] eqn:Hl.
  - rewrite bool_decide_true by eauto. simpl.
    destruct (fs st !! cf) as [[|old]|] eqn:Hc; [done|..].
    + rewrite bool_decide_true by eauto. simpl. rewrite Hc. simpl.
      eexists. split; [done|]. simpl. unfold stat. rewrite ?Hlocs, ?Hcfs.
      rewrite !callbacks_app, (callbacks_resolution _ Hev). simpl. rewrite !app_nil_r.
      split_and!; [done| |by rewrite lookup_delete_eq].
      rewrite lookup_delete_ne by done. by rewrite Hl.
    + rewrite bool_decide_false by (by intros [? ?]). simpl.
      eexists. split; [done|]. simpl. unfold stat. rewrite ?Hlocs, ?Hcfs.
      rewrite !callbacks_app, (callbacks_resolution _ Hev). simpl. rewrite !app_nil_r.
      split_and!; [done| |done]. by rewrite Hl.
  - rewrite bool_decide_false by (by intros [? ?]). simpl. rewrite Hl, Hpar. simpl.
    rewrite lookup_insert_ne by done.
    destruct (fs st !! cf) as [[|old]|] eqn:Hc; [done|..].
    + rewrite bool_decide_true by eauto. simpl.
      rewrite lookup_insert_ne by done. rewrite Hc. simpl.
      eexists. split; [done|]. simpl. unfold stat. rewrite ?Hlocs, ?Hcfs.
      rewrite !callbacks_app, (callbacks_resolution _ Hev). simpl. rewrite !app_nil_r.
      split_and!; [done| |by rewrite lookup_delete_eq].
      rewrite lookup_delete_ne, lookup_insert_eq by done. eauto.
    + rewrite bool_decide_false by (by intros [? ?]). simpl.
      eexists. split; [done|]. simpl. unfold stat. rewrite ?Hlocs, ?Hcfs.
      rewrite !callbacks_app, (callbacks_resolution _ Hev). simpl. rewrite !app_nil_r.
      split_and!; [done| |by rewrite lookup_insert_ne].
      rewrite lookup_insert_eq. eauto.
Qed.

(** Property X14.
    Above platform version 28, when the first selected path has an empty
    base name (it ends with a separator), the path of the cache copy is
    the [FromSharedStorage] directory itself, written with a separator at
    its end: once the directory is there, [os.remove] on it raises, before
    the stream is opened and without any callback. *)
Theorem scoped_storage_directory_path request_code data p rest cache_dir st :
  api_version > 28 →
  request_code = select_code (self st) →
  outcome (resolve_selection data) = Ok (SPath p :: rest) →
  getExternalCacheDir = Some cache_dir →
  Py.basename p = "" →
  stat (fs st) cache_dir = Some Dir →
  (∀ content,
     fs st !! Py.join cache_dir "FromSharedStorage" ≠ Some (File content)) →
  cache_file_of cache_dir p = Py.join cache_dir "FromSharedStorage" +:+ "/" ∧
  ∃ st',
    _on_activity_result request_code RESULT_OK (Some data) st =
      (Raise OSError, st') ∧
    trace st' = trace st ++ events (resolve_selection data) ∧
    fs st' !! Py.join cache_dir "FromSharedStorage" = Some Dir.
Proof.
  intros Hapi Hrc Hsel Hcd Hname Hdir Hloc.
  assert (cache_file_of cache_dir p = Py.join cache_dir "FromSharedStorage" +:+ "/")
    as Hcf by (by rewrite cache_file_shape, Hname).
  split; [done|].
  rewrite on_activity_result_matching by done.
  rewrite Hsel. cbv zeta. rewrite bool_decide_true by done.
  rewrite (copy_to_cache_unfold p rest data cache_dir) by done.
  destruct (cache_directory_shape cache_dir) as [Hloc0 Hlocs].
  assert (parent_is_dir (fs st) (Py.join cache_dir "FromSharedStorage") = true)
    as Hpar.
  { rewrite parent_is_dir_join by done. rewrite bool_decide_true by done.
    apply orb_true_r. }
  rewrite Hcf. clear Hcf.
  revert Hloc Hloc0 Hlocs Hpar.
  generalize (Py.join cache_dir "FromSharedStorage"). intros loc Hloc Hloc0 Hlocs Hpar.
  assert (∀ f, f !! loc = Some Dir → stat f (loc +:+ "/") = Some Dir) as Hslash.
  { intros f Hf. unfold stat. rewrite endswith_sep_append by done. simpl.
    rewrite rstrip_sep_append_sep, rstrip_sep_id by done.
    apply nonempty_true in Hloc0. by rewrite Hloc0, Hf. }
  cbv zeta. unfold path_exists, os_remove, os_mkdir, get_fs, set_fs, bind, ret, raise.
  simpl. rewrite (stat_plain _ loc), (rstrip_sep_id loc) by done.
  pose proof Hloc0 as Hn. apply nonempty_true in Hn. rewrite Hn.
  destruct (fs st !! loc) as [[|content]|] eqn:Hl; [..|by destruct (Hloc content)|].
  - rewrite bool_decide_true by eauto. simpl.
    rewrite (Hslash _ Hl). rewrite bool_decide_true by eauto. simpl.
    rewrite (Hslash _ Hl). eexists. by split_and!.
  - rewrite bool_decide_false by (by intros [? ?]). simpl. rewrite Hl, Hpar. simpl.
    rewrite (Hslash (<[loc:=Dir]> (fs st))) by apply lookup_insert_eq.
    rewrite bool_decide_true by eauto. simpl.
    rewrite (Hslash (<[loc:=Dir]> (fs st))) by apply lookup_insert_eq.
    eexists. split_and!; [done..|]. simpl. apply lookup_insert_eq.
Qed.

End MoreListener.

Section OpenAndSave.

Context `{P : Android} {Q : AndroidApp}.

(** The MIME type [_open_file] gives to the intent. *)
Lemma open_file_run kwargs st :
  filters kwargs ≠ Some [] →
  _open_file kwargs st =
    (Ok tt,
     {| self :=
          {| select_code := select_code (self st);
             save_code := save_code (self st);
             selection := selection (self st);
             _handle_selection :=
               default (_handle_selection (self st)) (on_selection kwargs);
             selected_mime_type :=
               Some (match filters kwargs with Some (f :: _) => f | _ => "" end) |};
        fs := fs st;
        trace :=
          trace st ++
          [EStartActivity
             (default "*/*"
                (mime_type !! match filters kwargs with Some (f :: _) => f | _ => "" end))
             (default false (multiple kwargs))
             (select_code (self st))] |}).
Proof.
  intros Hf. unfold _open_file, bind, get_self, set_self, log, ret, raise.
  cbn [self fs trace]. by destruct (filters kwargs) as [[|f fs']|].
Qed.

Lemma open_file_effect kwargs st :
  filters kwargs ≠ Some [] →
  ∃ type,
    self (_open_file kwargs st).2 =
      {| select_code := select_code (self st);
         save_code := save_code (self st);
         selection := selection (self st);
         _handle_selection :=
           default (_handle_selection (self st)) (on_selection kwargs);
         selected_mime_type :=
           Some (match filters kwargs with Some (f :: _) => f | _ => "" end) |} ∧
    trace (_open_file kwargs st).2 =
      trace st ++
      [EStartActivity type (default false (multiple kwargs)) (select_code (self st))].
Proof. intros Hf. rewrite open_file_run by done. by eexists. Qed.

(** Property X22.
    [_open_file] starts one activity, with the select code of the chooser
    as request code, and leaves both codes, the stored selection and the
    files as they are; the type of the intent is the table entry of the
    first filter and [*/*] without filters or for a filter the table does
    not hold. *)
Theorem open_file_starts_one_activity kwargs st :
  filters kwargs ≠ Some [] →
  ∃ st' type,
    _open_file kwargs st = (Ok tt, st') ∧
    trace st' =
      trace st ++
      [EStartActivity type (default false (multiple kwargs)) (select_code (self st))] ∧
    select_code (self st') = select_code (self st) ∧
    save_code (self st') = save_code (self st) ∧
    selection (self st') = selection (self st) ∧
    fs st' = fs st ∧
    (filters kwargs = None → type = "*/*") ∧
    (∀ key others, filters kwargs = Some (key :: others) →
       type = default "*/*" (mime_type !! key)).
Proof.
  intros Hf. rewrite open_file_run by done. eexists _, _.
  split; [done|]. cbn [self fs trace select_code save_code selection].
  split_and!; try done.
  - by intros ->.
  - by intros key others ->.
Qed.

(** Property X23.
    With an empty list of filters [_open_file] raises an [IndexError] and
    starts no activity, but the callback of the call has replaced the
    stored one by then. *)
Theorem open_file_empty_filters kwargs st :
  filters kwargs = Some [] →
  ∃ st',
    _open_file kwargs st = (Raise IndexError, st') ∧
    trace st' = trace st ∧
    _handle_selection (self st') =
      default (_handle_selection (self st)) (on_selection kwargs).
Proof.
  intros Hf. unfold _open_file, bind, get_self, set_self, log, ret, raise.
  cbn [self fs trace]. rewrite Hf. by eexists.
Qed.

(** Property X24.
    Two open requests of one chooser carry the same code, and a result
    with that code goes to the callback of the later request: the callback
    of the earlier one is not invoked (up to platform version 28). *)
Theorem later_open_takes_the_result kwargs1 kwargs2 cb2 data sel st :
  filters kwargs1 ≠ Some [] →
  filters kwargs2 ≠ Some [] →
  on_selection kwargs2 = Some cb2 →
  ¬ api_version > 28 →
  outcome (resolve_selection data) = Ok sel →
  let st2 := (_open_file kwargs2 (_open_file kwargs1 st).2).2 in
  select_code (self st2) = select_code (self st) ∧
  ∃ st3,
    _on_activity_result (select_code (self st)) RESULT_OK (Some data) st2 =
      (Ok tt, st3) ∧
    callbacks (trace st3) = callbacks (trace st) ++ [(cb2, sel)].
Proof.
  intros Hf1 Hf2 Hcb Hapi Hsel st2.
  assert (select_code (self st2) = select_code (self st) ∧
          _handle_selection (self st2) = cb2 ∧
          callbacks (trace st2) = callbacks (trace st)) as (Hcode & Hh & Htr).
  { subst st2.
    destruct (open_file_effect kwargs1 st Hf1) as (type1 & Hself1 & Htrace1).
    destruct (open_file_effect kwargs2 (_open_file kwargs1 st).2 Hf2)
      as (type2 & Hself2 & Htrace2).
    rewrite Hself2, Htrace2, Hself1, Htrace1, Hcb. simpl.
    split_and!; [done..|]. rewrite !callbacks_app. simpl. by rewrite !app_nil_r. }
  split; [done|]. clearbody st2.
  pose proof (is_writer_events _ (resolve_selection_is_writer data)) as Hev.
  rewrite on_activity_result_matching by done.
  rewrite Hsel. cbv zeta. rewrite bool_decide_false by done.
  unfold handle_selection, bind, get_self, log. simpl.
  eexists. split; [done|]. simpl.
  rewrite !callbacks_app, (callbacks_resolution _ Hev), Htr, Hh.
  by rewrite app_nil_r.
Qed.


(** Property X27.
    When the documents directory is not there and nothing stands at the
    path of the folder of the application, [os.mkdir] raises and
    [_save_file] with it: the callback of the call has been stored, but it
    is not invoked, nothing is made and no activity is started. *)
Theorem save_file_without_documents kwargs st :
  let documents := Py.join getExternalStorageDirectory DIRECTORY_DOCUMENTS in
  let folder := Py.join documents getApplicationLabel in
  getApplicationLabel ≠ "" →
  has_char "/" getApplicationLabel = false →
  documents ≠ "" →
  stat (fs st) documents ≠ Some Dir →
  fs st !! folder = None →
  ∃ st',
    _save_file kwargs st = (Raise OSError, st') ∧
    trace st' = trace st ∧
    fs st' = fs st ∧
    _handle_selection (self st') =
      default (_handle_selection (self st)) (on_selection kwargs).
Proof.
  intros documents folder Hlabel Hplain Hd0 Hdocs Hnone.
  destruct (join_no_trailing_sep documents getApplicationLabel Hplain Hlabel)
    as [Hfs Hf0].
  assert (parent_is_dir (fs st) folder = false) as Hpar.
  { unfold folder. rewrite parent_is_dir_join by done.
    rewrite bool_decide_false by done. apply nonempty_true in Hd0.
    by rewrite Hd0. }
  fold folder in Hfs, Hf0.
  unfold _save_file, join3. fold documents. fold folder.
  clearbody folder. clear Hdocs.
  unfold handle_selection, path_exists, os_mkdir, bind, get_self,
    set_self, get_fs, set_fs, log, ret, raise.
  cbn [self fs trace]. rewrite (stat_plain _ folder), (rstrip_sep_id folder) by done.
  apply nonempty_true in Hf0. rewrite Hf0, Hnone.
  rewrite bool_decide_false by (by intros [? ?]). simpl. rewrite Hnone, Hpar.
  eexists. by split_and!.
Qed.

(** Property X26.
    [_file_selection_dialog] does nothing at all for a mode that is
    neither [open] nor [save], a missing mode included: no activity, no
    callback, and the [on_selection] of the call is not stored. *)
Theorem file_selection_dialog_other_mode mode kwargs st :
  mode ≠ Some "open" → mode ≠ Some "save" →
  _file_selection_dialog mode kwargs st = (Ok tt, st).
Proof.
  intros Hopen Hsave. unfold _file_selection_dialog.
  by rewrite !bool_decide_false by done.
Qed.

End OpenAndSave.

(** ** The hypotheses of these properties on the concrete device *)

Module CaseFacts.

Import Device Scenario Cases.

Lemma parse_content_reads_first_row_witness :
  @grantUriPermission table_device foreign = Ok tt ∧
  @query table_device foreign (Some ["_data"]) None (ArgScalar None) None
    = Ok (Some table) ∧
  (@_parse_content table_device foreign (Some ["_data"]) None (ArgScalar None) None
     false (start table_device)).1 = Ok (Some "a.txt").
Proof.
  split; [reflexivity|]. split; [reflexivity|].
  refine (proj2 (proj2 (@parse_content_reads_first_row table_device foreign "_data" []
            None (ArgScalar None) None table (start table_device) eq_refl eq_refl))
            1%nat [Some "1"; Some "a.txt"] [[Some "2"; Some "b.txt"]] eq_refl _ eq_refl).
  vm_compute. intros Hin. inversion Hin as [|? ? ? Hin']; subst. inversion Hin'.
Defined.

Lemma parse_content_null_cursor_witness :
  @grantUriPermission null_device foreign = Ok tt ∧
  @query null_device foreign (Some ["_data"]) None (ArgScalar None) None = Ok None ∧
  @_parse_content null_device foreign (Some ["_data"]) None (ArgScalar None) None false
    (start null_device) =
    (Raise AttributeError,
     emit (@attempt_events null_device foreign (Some ["_data"]) None (ArgScalar None))
       (start null_device)).
Proof.
  split; [reflexivity|]. split; [reflexivity|].
  exact (@parse_content_null_cursor null_device foreign (Some ["_data"]) None
           (ArgScalar None) None false (start null_device) eq_refl eq_refl).
Defined.

Lemma aggregate_all_null_cell_witness :
  @grantUriPermission holed_device foreign = Ok tt ∧
  @query holed_device foreign None None (ArgScalar None) None = Ok (Some holed_table) ∧
  well_formed holed_table ∧
  [Some "1"; None] ∈ rows holed_table ∧
  None ∈ [Some "1"; None] ∧
  (@_parse_content holed_device foreign None None (ArgScalar None) None true
     (start holed_device)).1 = Raise TypeError.
Proof.
  assert (well_formed holed_table) as Hwf by (repeat constructor).
  assert ([Some "1"; None] ∈ rows holed_table) as Hrow by constructor.
  assert (None ∈ [Some "1"; @None string]) as Hcell by (repeat constructor).
  split; [reflexivity|]. split; [reflexivity|]. split; [exact Hwf|].
  split; [exact Hrow|]. split; [exact Hcell|].
  exact (@aggregate_all_null_cell holed_device foreign None None (ArgScalar None) None
           holed_table [Some "1"; None] (start holed_device)
           eq_refl eq_refl Hwf Hrow Hcell).
Defined.

Lemma resolve_uri_other_schemes_witness :
  @getScheme device28 (file_uri "/sdcard/a.txt") = Some "file" ∧
  Py.lower "file" ≠ "content" ∧
  @_resolve_uri device28 (Some a_txt) (start device28) =
    (Ok (if bool_decide (Py.lower "file" = "file") then @getPath device28 a_txt
         else None),
     start device28).
Proof.
  assert (Py.lower "file" ≠ "content") as Hne by discriminate.
  split; [reflexivity|]. split; [exact Hne|].
  refine (@resolve_uri_other_schemes device28 a_txt "file" (start device28)
            eq_refl Hne _ _ _); discriminate.
Defined.

Lemma resolve_uri_without_scheme_witness :
  (@None (@Uri device28) = None ∨
   ∃ u, @None (@Uri device28) = Some u ∧ @getScheme device28 u = None) ∧
  @_resolve_uri device28 None (start device28) =
    (Raise AttributeError, start device28).
Proof.
  assert (@None (@Uri device28) = None ∨
          ∃ u, @None (@Uri device28) = Some u ∧ @getScheme device28 u = None) as H
    by (left; reflexivity).
  split; [exact H|].
  exact (@resolve_uri_without_scheme device28 None (start device28) H).
Defined.


Lemma resolve_uri_downloads_result_witness :
  let st := start downloads_device in
  @getScheme downloads_device download_1034 = Some "content" ∧
  @getAuthority downloads_device download_1034
    = Some "com.android.providers.downloads.documents" ∧
  outcome (@_handle_downloads_documents downloads_device download_1034)
    = Ok (Some "data/foo.txt") ∧
  @_resolve_uri downloads_device (Some download_1034) st =
    (Ok (Some "data/foo.txt"),
     (@_handle_downloads_documents downloads_device download_1034 st).2).
Proof.
  intros st.
  assert (outcome (@_handle_downloads_documents downloads_device download_1034)
            = Ok (Some "data/foo.txt")) as Hd by (vm_compute; reflexivity).
  split; [reflexivity|]. split; [reflexivity|]. split; [exact Hd|].
  exact (@resolve_uri_downloads_result downloads_device download_1034 "content"
           (Some "data/foo.txt") st eq_refl eq_refl eq_refl Hd).
Defined.

Lemma downloads_id_not_a_number_witness :
  let st := start device28 in
  outcome (@downloads_display_name device28 download_raw) = Raise JavaException ∧
  @getDocumentId device28 download_raw
    = Some "raw:/storage/emulated/0/Download/x.pdf" ∧
  @Long_valueOf device28 "raw:/storage/emulated/0/Download/x.pdf" = None ∧
  @_handle_downloads_documents device28 download_raw st =
    (Raise JavaException,
     emit (events (@downloads_display_name device28 download_raw) ++
           [@EPrintExc device28 JavaException]) st).
Proof.
  intros st.
  assert (outcome (@downloads_display_name device28 download_raw)
            = Raise JavaException) as He by (vm_compute; reflexivity).
  split; [exact He|]. split; [reflexivity|]. split; [reflexivity|].
  exact (@downloads_id_not_a_number device28 download_raw _ JavaException st
           He eq_refl eq_refl).
Defined.

Lemma downloads_other_exception_witness :
  (∀ name, outcome (@query_display_name null_device download_1034) ≠ Ok (Some name)) ∧
  @getDocumentId null_device download_1034 = Some "1034" ∧
  @Long_valueOf null_device "1034" = Some 1034 ∧
  (@_handle_downloads_documents null_device download_1034 (start null_device)).1
    = Raise AttributeError.
Proof.
  assert (∀ name, outcome (@query_display_name null_device download_1034)
                  ≠ Ok (Some name)) as Hno.
  { intros name. vm_compute. discriminate. }
  split; [exact Hno|]. split; [reflexivity|]. split; [reflexivity|].
  refine (@downloads_other_exception null_device download_1034 "1034" 1034 []
            AttributeError _ (start null_device) Hno eq_refl eq_refl _ _ _).
  - vm_compute. reflexivity.
  - constructor.
  - discriminate.
Defined.

Lemma generic_content_both_queries_raise_witness :
  @getScheme name_only_device foreign = Some "content" ∧
  outcome (@_parse_content name_only_device foreign (Some ["_data"]) None
             (ArgScalar None) None false) = Raise JavaException ∧
  outcome (@_parse_content name_only_device foreign (Some ["_data"]) None
             (ArgList [None]) None false) = Raise JavaException ∧
  outcome (@query_display_name name_only_device foreign) = Ok (Some "report.pdf") ∧
  (@_resolve_uri name_only_device (Some foreign) (start name_only_device)).1 =
    match outcome (@query_display_name name_only_device foreign) with
    | Ok _ => Raise JavaException
    | Raise e' => Raise e'
    end.
Proof.
  assert (outcome (@_parse_content name_only_device foreign (Some ["_data"]) None
                     (ArgScalar None) None false) = Raise JavaException) as H1
    by (vm_compute; reflexivity).
  assert (outcome (@_parse_content name_only_device foreign (Some ["_data"]) None
                     (ArgList [None]) None false) = Raise JavaException) as H2
    by (vm_compute; reflexivity).
  split; [reflexivity|]. split; [exact H1|]. split; [exact H2|].
  split; [vm_compute; reflexivity|].
  refine (@generic_content_both_queries_raise name_only_device foreign "content"
            JavaException (start name_only_device) eq_refl eq_refl _ _ _ H1 H2);
    discriminate.
Defined.

Lemma generic_content_first_query_answers_witness :
  let st := start data_device in
  @getScheme data_device foreign = Some "content" ∧
  @grantUriPermission data_device foreign = Ok tt ∧
  outcome (@_parse_content data_device foreign (Some ["_data"]) None
             (ArgScalar None) None false) = Ok (Some "/sdcard/Download/x.pdf") ∧
  @_resolve_uri data_device (Some foreign) st =
    (Ok (Some "/sdcard/Download/x.pdf"),
     emit (@attempt_events data_device foreign (Some ["_data"]) None (ArgScalar None))
       st).
Proof.
  intros st.
  assert (outcome (@_parse_content data_device foreign (Some ["_data"]) None
                     (ArgScalar None) None false)
            = Ok (Some "/sdcard/Download/x.pdf")) as H1 by (vm_compute; reflexivity).
  split; [reflexivity|]. split; [reflexivity|]. split; [exact H1|].
  refine (@generic_content_first_query_answers data_device foreign "content"
            "/sdcard/Download/x.pdf" st eq_refl eq_refl _ _ _ eq_refl H1 _);
    discriminate.
Defined.

Lemma single_selection_slot_witness :
  let data := picked_one quiet28 foreign in
  getClipData data = None ∧
  (@resolve_selection quiet28 data (start quiet28)).1 =
    match outcome (@_resolve_uri quiet28 (getData data)) with
    | Ok ele => Ok [to_slot ele]
    | Raise e => Raise e
    end.
Proof.
  intros data. split; [reflexivity|].
  exact (@single_selection_slot quiet28 data (start quiet28) eq_refl).
Defined.

Lemma empty_clip_selection_witness :
  getClipData (empty_clip device28) = Some [] ∧
  @resolve_selection device28 (empty_clip device28) (start device28) =
    (Ok [], start device28).
Proof.
  split; [reflexivity|].
  exact (@empty_clip_selection device28 (empty_clip device28) (start device28) eq_refl).
Defined.

Lemma result_without_uri_witness :
  let st := start device28 in
  200000 = select_code (self st) ∧
  getClipData (empty_result device28) = None ∧
  getData (empty_result device28) = None ∧
  @_on_activity_result device28 200000 RESULT_OK (Some (empty_result device28)) st =
    (Raise AttributeError, st).
Proof.
  intros st. split; [reflexivity|]. split; [reflexivity|]. split; [reflexivity|].
  exact (@result_without_uri device28 200000 (empty_result device28) st
           eq_refl eq_refl eq_refl).
Defined.

Lemma delivery_below_scoped_storage_witness :
  let data := picked_many device28 [a_txt; b_txt] None in
  let sel := [SPath "/sdcard/a.txt"; SPath "/sdcard/b.txt"] in
  let st := start device28 in
  ¬ @api_version device28 > 28 ∧
  200000 = select_code (self st) ∧
  outcome (@resolve_selection device28 data) = Ok sel ∧
  ∃ st',
    @_on_activity_result device28 200000 RESULT_OK (Some data) st = (Ok tt, st') ∧
    selection (self st') = Some sel ∧
    callbacks (trace st') =
      callbacks (trace st) ++ [(_handle_selection (self st), sel)] ∧
    fs st' = fs st.
Proof.
  intros data sel st.
  assert (¬ @api_version device28 > 28) as Hapi by (intros H; discriminate H).
  assert (outcome (@resolve_selection device28 data) = Ok sel) as Hsel
    by (vm_compute; reflexivity).
  split; [exact Hapi|]. split; [reflexivity|]. split; [exact Hsel|].
  exact (@delivery_below_scoped_storage device28 200000 data sel st Hapi eq_refl Hsel).
Defined.

Lemma scoped_storage_needs_first_path_witness :
  let data := picked_many quiet29 [foreign; a_txt] None in
  let sel := [SEmptyList; SPath "/sdcard/a.txt"] in
  let st := start quiet29 in
  @api_version quiet29 > 28 ∧
  200000 = select_code (self st) ∧
  outcome (@resolve_selection quiet29 data) = Ok sel ∧
  (∀ p rest, sel ≠ SPath p :: rest) ∧
  ∃ st',
    @_on_activity_result quiet29 200000 RESULT_OK (Some data) st =
      (Raise TypeError, st') ∧
    selection (self st') = Some sel ∧
    callbacks (trace st') = callbacks (trace st) ∧
    fs st' = fs st.
Proof.
  intros data sel st.
  assert (@api_version quiet29 > 28) as Hapi by reflexivity.
  assert (outcome (@resolve_selection quiet29 data) = Ok sel) as Hsel
    by (vm_compute; reflexivity).
  assert (∀ p rest, sel ≠ SPath p :: rest) as Hfirst by (intros p rest; discriminate).
  split; [exact Hapi|]. split; [reflexivity|]. split; [exact Hsel|].
  split; [exact Hfirst|].
  exact (@scoped_storage_needs_first_path quiet29 200000 data sel st
           Hapi eq_refl Hsel Hfirst).
Defined.

Lemma scoped_storage_stream_fails_witness :
  let data := picked_one unreadable29 a_txt in
  let st := start unreadable29 in
  let cache_dir := "/storage/emulated/0/Android/data/org.test/cache" in
  @api_version unreadable29 > 28 ∧
  200000 = select_code (self st) ∧
  outcome (@resolve_selection unreadable29 data) = Ok [SPath "/sdcard/a.txt"] ∧
  @getExternalCacheDir unreadable29 = Some cache_dir ∧
  @openInputStream unreadable29 (getData data) = Raise JavaException ∧
  Py.basename "/sdcard/a.txt" ≠ "" ∧
  Py.basename "/sdcard/a.txt" ≠ "." ∧
  Py.basename "/sdcard/a.txt" ≠ ".." ∧
  stat (fs st) cache_dir = Some Dir ∧
  stat (fs st) (cache_file_of cache_dir "/sdcard/a.txt") ≠ Some Dir ∧
  ∃ st',
    @_on_activity_result unreadable29 200000 RESULT_OK (Some data) st =
      (Raise JavaException, st') ∧
    callbacks (trace st') = callbacks (trace st) ∧
    is_Some (stat (fs st') (Py.join cache_dir "FromSharedStorage")) ∧
    stat (fs st') (cache_file_of cache_dir "/sdcard/a.txt") = None.
Proof.
  intros data st cache_dir.
  assert (@api_version unreadable29 > 28) as Hapi by reflexivity.
  assert (outcome (@resolve_selection unreadable29 data) = Ok [SPath "/sdcard/a.txt"])
    as Hsel by (vm_compute; reflexivity).
  assert (Py.basename "/sdcard/a.txt" ≠ "") as Hn1 by discriminate.
  assert (Py.basename "/sdcard/a.txt" ≠ ".") as Hn2 by discriminate.
  assert (Py.basename "/sdcard/a.txt" ≠ "..") as Hn3 by discriminate.
  assert (stat (fs st) cache_dir = Some Dir) as Hdir by (vm_compute; reflexivity).
  assert (stat (fs st) (cache_file_of cache_dir "/sdcard/a.txt") ≠ Some Dir) as Hcf
    by (vm_compute; discriminate).
  split; [exact Hapi|]. split; [reflexivity|]. split; [exact Hsel|].
  split; [reflexivity|]. split; [reflexivity|].
  split; [exact Hn1|]. split; [exact Hn2|]. split; [exact Hn3|].
  split; [exact Hdir|]. split; [exact Hcf|].
  exact (@scoped_storage_stream_fails unreadable29 200000 data "/sdcard/a.txt" []
           cache_dir JavaException st Hapi eq_refl Hsel eq_refl eq_refl
           Hn1 Hn2 Hn3 Hdir Hcf).
Defined.

Lemma scoped_storage_directory_path_witness :
  let data := picked_one device29 a_folder in
  let st := start device29 in
  let cache_dir := "/storage/emulated/0/Android/data/org.test/cache" in
  @api_version device29 > 28 ∧
  200000 = select_code (self st) ∧
  outcome (@resolve_selection device29 data) = Ok [SPath "/sdcard/Pictures/"] ∧
  @getExternalCacheDir device29 = Some cache_dir ∧
  Py.basename "/sdcard/Pictures/" = "" ∧
  stat (fs st) cache_dir = Some Dir ∧
  (∀ content,
     fs st !! Py.join cache_dir "FromSharedStorage" ≠ Some (File content)) ∧
  cache_file_of cache_dir "/sdcard/Pictures/" =
    Py.join cache_dir "FromSharedStorage" +:+ "/" ∧
  ∃ st',
    @_on_activity_result device29 200000 RESULT_OK (Some data) st =
      (Raise OSError, st') ∧
    trace st' = trace st ++ events (@resolve_selection device29 data) ∧
    fs st' !! Py.join cache_dir "FromSharedStorage" = Some Dir.
Proof.
  intros data st cache_dir.
  assert (@api_version device29 > 28) as Hapi by reflexivity.
  assert (outcome (@resolve_selection device29 data) = Ok [SPath "/sdcard/Pictures/"])
    as Hsel by (vm_compute; reflexivity).
  assert (stat (fs st) cache_dir = Some Dir) as Hdir by (vm_compute; reflexivity).
  assert (∀ content,
            fs st !! Py.join cache_dir "FromSharedStorage" ≠ Some (File content))
    as Hloc by (intros content; vm_compute; discriminate).
  split; [exact Hapi|]. split; [reflexivity|]. split; [exact Hsel|].
  split; [reflexivity|]. split; [reflexivity|].
  split; [exact Hdir|]. split; [exact Hloc|].
  exact (@scoped_storage_directory_path device29 200000 data "/sdcard/Pictures/" []
           cache_dir st Hapi eq_refl Hsel eq_refl eq_refl Hdir Hloc).
Defined.

Lemma multiple_selection_abandoned_witness :
  let data := picked_many device28 [a_txt; foreign; c_txt] (Some a_txt) in
  getClipData data = Some ([Some a_txt] ++ Some foreign :: [Some c_txt]) ∧
  Forall2 (λ item r, outcome (@_resolve_uri device28 item) = Ok r)
    [Some a_txt] [Some "/sdcard/a.txt"] ∧
  outcome (@_resolve_uri device28 (Some foreign)) = Raise JavaException ∧
  (@resolve_selection device28 data (start device28)).1 =
    match outcome (@_resolve_uri device28 (getData data)) with
    | Ok ele => Ok [to_slot ele]
    | Raise e' => Raise e'
    end.
Proof.
  intros data.
  assert (Forall2 (λ item r, outcome (@_resolve_uri device28 item) = Ok r)
            [Some a_txt] [Some "/sdcard/a.txt"]) as Hpre.
  { constructor; [vm_compute; reflexivity|]. constructor. }
  assert (outcome (@_resolve_uri device28 (Some foreign)) = Raise JavaException)
    as Hbad by (vm_compute; reflexivity).
  split; [reflexivity|]. split; [exact Hpre|]. split; [exact Hbad|].
  exact (@multiple_selection_abandoned device28 data [Some a_txt] (Some foreign)
           [Some c_txt] [Some "/sdcard/a.txt"] JavaException (start device28)
           eq_refl Hpre Hbad).
Defined.

Lemma open_file_starts_one_activity_witness :
  let st := start device28 in
  filters open_images ≠ Some [] ∧
  ∃ st' type,
    @_open_file device28 open_images st = (Ok tt, st') ∧
    trace st' =
      trace st ++
      [EStartActivity type (default false (multiple open_images))
         (select_code (self st))] ∧
    select_code (self st') = select_code (self st) ∧
    save_code (self st') = save_code (self st) ∧
    selection (self st') = selection (self st) ∧
    fs st' = fs st ∧
    (filters open_images = None → type = "*/*") ∧
    (∀ key others, filters open_images = Some (key :: others) →
       type = default "*/*" (mime_type !! key)).
Proof.
  intros st.
  assert (filters open_images ≠ Some []) as Hf by discriminate.
  split; [exact Hf|].
  exact (@open_file_starts_one_activity device28 open_images st Hf).
Defined.

Lemma open_file_empty_filters_witness :
  let st := start device28 in
  filters open_no_filter = Some [] ∧
  ∃ st',
    @_open_file device28 open_no_filter st = (Raise IndexError, st') ∧
    trace st' = trace st ∧
    _handle_selection (self st') =
      default (_handle_selection (self st)) (on_selection open_no_filter).
Proof.
  intros st. split; [reflexivity|].
  exact (@open_file_empty_filters device28 open_no_filter st eq_refl).
Defined.

Lemma later_open_takes_the_result_witness :
  let data := picked_one device28 a_txt in
  let sel := [SPath "/sdcard/a.txt"] in
  let st := start device28 in
  let st2 := (@_open_file device28 open_images
                (@_open_file device28 open_any st).2).2 in
  filters open_any ≠ Some [] ∧
  filters open_images ≠ Some [] ∧
  on_selection open_images = Some (OnSelection 2) ∧
  ¬ @api_version device28 > 28 ∧
  outcome (@resolve_selection device28 data) = Ok sel ∧
  select_code (self st2) = select_code (self st) ∧
  ∃ st3,
    @_on_activity_result device28 (select_code (self st)) RESULT_OK (Some data) st2 =
      (Ok tt, st3) ∧
    callbacks (trace st3) = callbacks (trace st) ++ [(OnSelection 2, sel)].
Proof.
  intros data sel st st2.
  assert (filters open_any ≠ Some []) as Hf1 by discriminate.
  assert (filters open_images ≠ Some []) as Hf2 by discriminate.
  assert (¬ @api_version device28 > 28) as Hapi by (intros H; discriminate H).
  assert (outcome (@resolve_selection device28 data) = Ok sel) as Hsel
    by (vm_compute; reflexivity).
  split; [exact Hf1|]. split; [exact Hf2|]. split; [reflexivity|].
  split; [exact Hapi|]. split; [exact Hsel|].
  exact (@later_open_takes_the_result device28 open_any open_images (OnSelection 2)
           data sel st Hf1 Hf2 eq_refl Hapi Hsel).
Defined.

Lemma file_selection_dialog_other_mode_witness :
  let st := start device28 in
  @None string ≠ Some "open" ∧ @None string ≠ Some "save" ∧
  @_file_selection_dialog device28 notes_app None open_any st = (Ok tt, st).
Proof.
  intros st.
  assert (@None string ≠ Some "open") as Hopen by discriminate.
  assert (@None string ≠ Some "save") as Hsave by discriminate.
  split; [exact Hopen|]. split; [exact Hsave|].
  exact (@file_selection_dialog_other_mode device28 notes_app None open_any st
           Hopen Hsave).
Defined.


Lemma save_file_without_documents_witness :
  let st := start device28 in
  let documents :=
    Py.join (@getExternalStorageDirectory notes_app) (@DIRECTORY_DOCUMENTS device28) in
  let folder := Py.join documents (@getApplicationLabel notes_app) in
  @getApplicationLabel notes_app ≠ "" ∧
  has_char "/" (@getApplicationLabel notes_app) = false ∧
  documents ≠ "" ∧
  stat (fs st) documents ≠ Some Dir ∧
  fs st !! folder = None ∧
  ∃ st',
    @_save_file device28 notes_app open_any st = (Raise OSError, st') ∧
    trace st' = trace st ∧
    fs st' = fs st ∧
    _handle_selection (self st') =
      default (_handle_selection (self st)) (on_selection open_any).
Proof.
  intros st documents folder.
  assert (@getApplicationLabel notes_app ≠ "") as Hlabel by discriminate.
  assert (documents ≠ "") as Hd0 by discriminate.
  assert (stat (fs st) documents ≠ Some Dir) as Hdocs by (vm_compute; discriminate).
  assert (fs st !! folder = None) as Hnone by (vm_compute; reflexivity).
  split; [exact Hlabel|]. split; [reflexivity|]. split; [exact Hd0|].
  split; [exact Hdocs|]. split; [exact Hnone|].
  exact (@save_file_without_documents device28 notes_app open_any st
           Hlabel eq_refl Hd0 Hdocs Hnone).
Defined.

(** [_save_file] on the device: the path handed to the callback when the
    documents directory is there, and no callback when it is not. *)
Lemma save_file_on_the_device :
  callbacks (trace (@_save_file device28 notes_app open_any
                      (documents_ready device28)).2) =
    [(OnSelection 1, [SPath "/storage/emulated/0/Documents/Notes/__temp_file__"])] ∧
  callbacks (trace (@_save_file device28 notes_app open_any (start device28)).2) = [].
Proof. split; vm_compute; reflexivity. Qed.

End CaseFacts.
